(** * Branch-protection configurator: a model of [scripts/setup-branch-protection.py]

    The script reads three environment variables, may ask [git] for the
    remote URL and parse it, prints the policy, asks for confirmation,
    sends one HTTP PUT and, after a 200, one HTTP GET.

    The repository keeps the text of the script behind [# ] comment
    markers; the model follows that text, line by line.

    Python [str] values are modelled by [string], read as the UTF-8
    bytes of the text.  What the script prints, what it hands to the
    outside (environment reads, the subprocess, the prompt, the two
    HTTP calls) and the exception or value it ends with are the result
    of running a computation of the monad [M] in a [world], which holds
    the answers of the outside. *)

From Stdlib Require Import String Ascii List ZArith Lia Bool DecimalString.
From stdpp Require Import base gmap strings.
Import ListNotations.
Local Open Scope string_scope.

(** String concatenation computes on literals, as in the Standard Library. *)
#[local] Arguments String.append (s1 s2)%_string_scope : simpl nomatch.

(** ** Python string operations *)

Module PyStr.

(** [s.startswith(p)] *)
Fixpoint startswith (s p : string) {struct p} : bool :=
  match p with
  | "" => true
  | String a p' =>
      match s with
      | "" => false
      | String b s' => Ascii.eqb a b && startswith s' p'
      end
  end.

(** [sub in s] *)
Fixpoint str_in (sub s : string) : bool :=
  startswith s sub ||
  match s with
  | "" => false
  | String _ s' => str_in sub s'
  end.

(** [s.endswith(suf)]: some tail of [s] is [suf]. *)
Fixpoint endswith (s suf : string) : bool :=
  String.eqb s suf ||
  match s with
  | "" => false
  | String _ s' => endswith s' suf
  end.

(** [s.count(c)] for a single character [c]. *)
Fixpoint count (c : ascii) (s : string) : nat :=
  match s with
  | "" => 0
  | String a s' => (if Ascii.eqb a c then 1 else 0) + count c s'
  end.

(** [s.replace(old, new)] for a non-empty [old]: the occurrences of [old]
    are found from the left and do not overlap.  [skip] counts the
    characters of a found occurrence that are still to be passed over. *)
Fixpoint replace_from (skip : nat) (s old new : string) : string :=
  match s with
  | "" => ""
  | String c s' =>
      match skip with
      | S k => replace_from k s' old new
      | O =>
          if startswith s old
          then new ++ replace_from (String.length old - 1) s' old new
          else String c (replace_from 0 s' old new)
      end
  end.

Definition replace (s old new : string) : string := replace_from 0 s old new.

(** [s.split(sep)] for a non-empty [sep]; same scan as [replace_from]. *)
Fixpoint split_from (skip : nat) (s sep : string) : list string :=
  match s with
  | "" => [""]
  | String c s' =>
      match skip with
      | S k => split_from k s' sep
      | O =>
          if startswith s sep
          then "" :: split_from (String.length sep - 1) s' sep
          else match split_from 0 s' sep with
               | part :: parts => String c part :: parts
               | [] => [String c ""]
               end
      end
  end.

Definition split (s sep : string) : list string := split_from 0 s sep.

(** White space as [str.strip()] sees it, on UTF-8 bytes: the ASCII
    characters 9-13 and 28-32, U+0085 and U+00A0 (two bytes), U+1680,
    U+2000-U+200A, U+2028, U+2029, U+202F, U+205F and U+3000 (three). *)
Definition space1 (a : ascii) : bool :=
  let n := nat_of_ascii a in
  ((9 <=? n) && (n <=? 13) || (28 <=? n) && (n <=? 32))%nat.

Definition space2 (a b : ascii) : bool :=
  ((nat_of_ascii a =? 194)
   && ((nat_of_ascii b =? 133) || (nat_of_ascii b =? 160)))%nat.

Definition space3 (a b c : ascii) : bool :=
  let x := nat_of_ascii a in
  let y := nat_of_ascii b in
  let z := nat_of_ascii c in
  ((x =? 225) && (y =? 154) && (z =? 128)
   || (x =? 226) && (y =? 128)
        && ((128 <=? z) && (z <=? 138) || (z =? 168) || (z =? 169) || (z =? 175))
   || (x =? 226) && (y =? 129) && (z =? 159)
   || (x =? 227) && (y =? 128) && (z =? 128))%nat.

(** Drops the white space at the front of [s]; with [back], [s] is a
    reversed string and the bytes of a character come last byte first. *)
Fixpoint drop_space (back : bool) (s : string) : string :=
  match s with
  | "" => ""
  | String a s1 =>
      if space1 a then drop_space back s1
      else
        match s1 with
        | "" => s
        | String b s2 =>
            if (if back then space2 b a else space2 a b) then drop_space back s2
            else
              match s2 with
              | "" => s
              | String c s3 =>
                  if (if back then space3 c b a else space3 a b c)
                  then drop_space back s3
                  else s
              end
        end
  end.

Definition lstrip (s : string) : string := drop_space false s.
Definition rstrip (s : string) : string :=
  String.rev (drop_space true (String.rev s)).

(** [s.strip()] *)
Definition strip (s : string) : string := rstrip (lstrip s).

(** [s.lower()] on the ASCII letters.  Other characters are left as they
    are: none of them has [y], [e] or [s] as its lower case, so the
    comparison of [lower s] with ["y"] and ["yes"], the only use the
    script makes of it, comes out as in Python. *)
Definition lower_char (c : ascii) : ascii :=
  let n := nat_of_ascii c in
  if ((65 <=? n) && (n <=? 90))%nat then ascii_of_nat (n + 32) else c.

Fixpoint lower (s : string) : string :=
  match s with
  | "" => ""
  | String c s' => String (lower_char c) (lower s')
  end.

(** [sep.join(l)] *)
Fixpoint join (sep : string) (l : list string) : string :=
  match l with
  | [] => ""
  | x :: l' =>
      match l' with
      | [] => x
      | _ :: _ => x ++ sep ++ join sep l'
      end
  end.

(** [s * n] *)
Fixpoint mul (s : string) (n : nat) : string :=
  match n with
  | O => ""
  | S k => s ++ mul s k
  end.

(** [str(n)] for an [int] *)
Definition of_int (n : Z) : string := NilZero.string_of_int (Z.to_int n).

End PyStr.

(** ** Values, exceptions, results *)

(** The Python values the script builds for the request body and gets
    back from [response.json()].  A [float] keeps its literal. *)
Unset Elimination Schemes.
Inductive value : Type :=
| VNone
| VBool (b : bool)
| VInt (n : Z)
| VFloat (lit : string)
| VStr (s : string)
| VList (l : list value)
| VDict (items : list (string * value)).
Set Elimination Schemes.

(** The exceptions that can travel through the script.
    [RequestException] stands for [requests.exceptions.RequestException]
    and its subclasses, with [msg] what [str(e)] gives; the
    [JSONDecodeError] that [response.json()] raises is one of them. *)
Inductive exn : Type :=
| SystemExit (code : Z)
| KeyboardInterrupt
| CalledProcessError
| FileNotFoundError
| EOFError
| IndexError
| KeyError
| TypeError
| AttributeError
| RequestException (msg : string).

Inductive res (A : Type) : Type :=
| Val (a : A)
| Exc (e : exn).
Arguments Val {A} a.
Arguments Exc {A} e.

(** ** The outside world *)

Inductive stream : Type := stdout | stderr.

Record request : Type := {
  url : string;
  headers : list (string * string);
  json_body : option value;
  timeout : Z
}.

Record response : Type := {
  status_code : Z;
  text : string;
  json : res value
}.

(** What a run does to the outside, in order. *)
Inductive event : Type :=
| Getenv (name : string)
| Print (file : stream) (line : string)
| Run (argv : list string)
| Input (prompt : string)
| Put (r : request)
| Get (r : request).

(** The answers of the outside: the environment, what the subprocess
    writes to its standard output (or the exception [subprocess.run]
    raises), the line read at the prompt, and the service's answers. *)
Record world : Type := {
  environ : gmap string string;
  subprocess_run : list string -> res string;
  input : string -> res string;
  requests_put : request -> res response;
  requests_get : request -> res response
}.

(** ** The monad of the script: reads the world, logs events, may raise *)

Definition M (A : Type) : Type := world -> list event * res A.

Definition ret {A : Type} (a : A) : M A := fun _ => ([], Val a).

Definition bind {A B : Type} (m : M A) (f : A -> M B) : M B :=
  fun w =>
    match m w with
    | (t, Val a) => let (t', r) := f a w in ((t ++ t')%list, r)
    | (t, Exc e) => (t, Exc e)
    end.

Definition raise {A : Type} (e : exn) : M A := fun _ => ([], Exc e).

Definition lift {A : Type} (r : res A) : M A := fun _ => ([], r).

Definition emit (e : event) : M unit := fun _ => ([e], Val tt).

Definition ask {A : Type} (f : world -> A) : M A := fun w => ([], Val (f w)).

(** [try: m  except ...: h e]; [h e = None] when no clause catches [e]. *)
Definition try_except {A : Type} (m : M A) (h : exn -> option (M A)) : M A :=
  fun w =>
    match m w with
    | (t, Val a) => (t, Val a)
    | (t, Exc e) =>
        match h e with
        | Some k => let (t', r) := k w in ((t ++ t')%list, r)
        | None => (t, Exc e)
        end
    end.

Declare Scope py_scope.
Delimit Scope py_scope with py.
Notation "x <- m ;; k" := (bind m (fun x => k))
  (at level 100, m at next level, right associativity) : py_scope.
Notation "m ;; k" := (bind m (fun _ => k))
  (at level 100, right associativity) : py_scope.
Local Open Scope py_scope.

Definition res_bind {A B : Type} (r : res A) (f : A -> res B) : res B :=
  match r with
  | Val a => f a
  | Exc e => Exc e
  end.

(** ** Built-ins and library calls *)

(** [os.getenv(name, default)] *)
Definition os_getenv (name default : string) : M string :=
  emit (Getenv name);;
  env <- ask environ;;
  ret (match env !! name with Some v => v | None => default end).

(** [print(line, file=file)] *)
Definition print_to (file : stream) (line : string) : M unit :=
  emit (Print file line).

Definition print (line : string) : M unit := print_to stdout line.

(** [sys.exit(code)] *)
Definition sys_exit {A : Type} (code : Z) : M A := raise (SystemExit code).

(** [subprocess.run(argv, capture_output=True, text=True, check=True).stdout] *)
Definition subprocess_run_stdout (argv : list string) : M string :=
  emit (Run argv);;
  run <- ask subprocess_run;;
  lift (run argv).

(** [input(prompt)] *)
Definition py_input (prompt : string) : M string :=
  emit (Input prompt);;
  read <- ask input;;
  lift (read prompt).

(** [requests.put(url, headers=headers, json=body, timeout=timeout)] *)
Definition put (url : string) (headers : list (string * string))
    (body : value) (timeout : Z) : M response :=
  let r := {| url := url; headers := headers;
              json_body := Some body; timeout := timeout |} in
  emit (Put r);;
  send <- ask requests_put;;
  lift (send r).

(** [requests.get(url, headers=headers, timeout=timeout)] *)
Definition get (url : string) (headers : list (string * string))
    (timeout : Z) : M response :=
  let r := {| url := url; headers := headers;
              json_body := None; timeout := timeout |} in
  emit (Get r);;
  send <- ask requests_get;;
  lift (send r).

(** [l[i]] on a list *)
Definition index {A : Type} (l : list A) (i : nat) : res A :=
  match nth_error l i with
  | Some x => Val x
  | None => Exc IndexError
  end.

(** The value a dict holds for [key]; a dict holds a key once. *)
Fixpoint assoc (items : list (string * value)) (key : string) : option value :=
  match items with
  | [] => None
  | (k, v) :: rest => if String.eqb k key then Some v else assoc rest key
  end.

(** [d[key]] *)
Definition getitem (d : value) (key : string) : res value :=
  match d with
  | VDict items =>
      match assoc items key with
      | Some v => Val v
      | None => Exc KeyError
      end
  | _ => Exc TypeError
  end.

(** [d.get(key, default)]; only a dict has the method. *)
Definition dict_get (d : value) (key : string) (default : value) : res value :=
  match d with
  | VDict items =>
      match assoc items key with
      | Some v => Val v
      | None => Val default
      end
  | _ => Exc AttributeError
  end.

Fixpoint strs (l : list value) : res (list string) :=
  match l with
  | [] => Val []
  | VStr s :: rest => res_bind (strs rest) (fun ss => Val (s :: ss))
  | _ :: _ => Exc TypeError
  end.

(** [sep.join(v)] for a list value [v] of strings *)
Definition join_value (sep : string) (v : value) : res string :=
  match v with
  | VList l => res_bind (strs l) (fun ss => Val (PyStr.join sep ss))
  | _ => Exc TypeError
  end.

(** Truth value of a variable that holds a string or [None]. *)
Definition truthy (o : option string) : bool :=
  match o with
  | Some s => negb (String.eqb s "")
  | None => false
  end.

(** [f"{o}"] for a variable that holds a string or [None]. *)
Definition fstr (o : option string) : string :=
  match o with
  | Some s => s
  | None => "None"
  end.

(** ** The script *)

Definition BRANCH : string := "master".

Definition PROTECTION_CONFIG : value :=
  VDict [
    ("required_status_checks",
       VDict [("strict", VBool true);
              ("contexts", VList [VStr "quality"; VStr "deploy"])]);
    ("enforce_admins", VBool true);
    ("required_pull_request_reviews",
       VDict [("dismiss_stale_reviews", VBool true);
              ("require_code_owner_reviews", VBool false);
              ("required_approving_review_count", VInt 1);
              ("require_last_push_approval", VBool true);
              ("dismissal_restrictions", VDict [])]);
    ("restrictions", VNone);
    ("required_linear_history", VBool true);
    ("allow_force_pushes", VBool false);
    ("allow_deletions", VBool false);
    ("required_conversation_resolution", VBool true);
    ("lock_branch", VBool false);
    ("allow_fork_syncing", VBool true)
  ].

(** The module-level names bound from the environment. *)
Record globals : Type := {
  OWNER : string;
  REPO : string;
  GITHUB_TOKEN : string
}.

Definition module_init : M globals :=
  owner <- os_getenv "GITHUB_OWNER" "";;
  repo <- os_getenv "GITHUB_REPO" "";;
  token <- os_getenv "GITHUB_TOKEN" "";;
  ret {| OWNER := owner; REPO := repo; GITHUB_TOKEN := token |}.

Definition print_header (text : string) : M unit :=
  print "";;
  print (PyStr.mul "=" 60);;
  print ("  " ++ text);;
  print (PyStr.mul "=" 60);;
  print "".

Definition print_success (text : string) : M unit :=
  print ("✅ " ++ text).

Definition print_error (text : string) : M unit :=
  print_to stderr ("❌ " ++ text).

Definition print_warning (text : string) : M unit :=
  print ("⚠️  " ++ text).

Definition print_info (text : string) : M unit :=
  print ("ℹ️  " ++ text).

Definition get_repo_info : M (option string * option string) :=
  try_except
    (result_stdout <-
       subprocess_run_stdout ["git"; "remote"; "get-url"; "origin"];;
     let remote_url := PyStr.strip result_stdout in
     if PyStr.str_in "github.com" remote_url then
       let remote_url := PyStr.replace remote_url ".git" "" in
       parts <-
         lift (if PyStr.str_in "https://" remote_url
               then res_bind (index (PyStr.split remote_url "github.com/") 1)
                      (fun p => Val (PyStr.split p "/"))
               else res_bind (index (PyStr.split remote_url ":") 1)
                      (fun p => Val (PyStr.split p "/")));;
       if (2 <=? length parts)%nat then
         p0 <- lift (index parts 0);;
         p1 <- lift (index parts 1);;
         ret (Some p0, Some p1)
       else ret (None, None)
     else ret (None, None))
    (fun e =>
       match e with
       | CalledProcessError => Some (ret (None, None))
       | _ => None
       end).

Definition apply_branch_protection (owner repo : option string)
    (branch token : string) : M bool :=
  let url := "https://api.github.com/repos/" ++ fstr owner ++ "/" ++ fstr repo
             ++ "/branches/" ++ branch ++ "/protection" in
  let headers := [("Accept", "application/vnd.github+json");
                  ("Authorization", "Bearer " ++ token);
                  ("X-GitHub-Api-Version", "2022-11-28")] in
  print "Applying branch protection...";;
  print "";;
  try_except
    (response <- put url headers PROTECTION_CONFIG 30;;
     if (status_code response =? 200)%Z then
       print_success "Branch protection applied successfully!";;
       ret true
     else if (status_code response =? 401)%Z then
       print_error "Authentication failed. Check your GITHUB_TOKEN.";;
       print_info "Generate a token at: https://github.com/settings/tokens";;
       print_info "Required scopes: repo (full control)";;
       ret false
     else if (status_code response =? 403)%Z then
       print_error "Permission denied. You need admin access to this repository.";;
       ret false
     else if (status_code response =? 404)%Z then
       print_error ("Repository or branch not found: " ++ fstr owner ++ "/"
                    ++ fstr repo ++ "/" ++ branch);;
       print_info "Make sure the branch exists and you have access.";;
       ret false
     else
       print_error ("Failed with status code: "
                    ++ PyStr.of_int (status_code response));;
       print_error ("Response: " ++ text response);;
       ret false)
    (fun e =>
       match e with
       | RequestException msg =>
           Some (print_error ("Request failed: " ++ msg);; ret false)
       | _ => None
       end).

Section Script.

(** [repr] of a float, a list or a dict belongs to the interpreter. *)
Variable repr : value -> string.

(** [f"{v}"] *)
Definition py_str (v : value) : string :=
  match v with
  | VNone => "None"
  | VBool true => "True"
  | VBool false => "False"
  | VInt n => PyStr.of_int n
  | VStr s => s
  | VFloat _ | VList _ | VDict _ => repr v
  end.

Definition verify_protection (owner repo : option string)
    (branch token : string) : M unit :=
  let url := "https://api.github.com/repos/" ++ fstr owner ++ "/" ++ fstr repo
             ++ "/branches/" ++ branch ++ "/protection" in
  let headers := [("Accept", "application/vnd.github+json");
                  ("Authorization", "Bearer " ++ token);
                  ("X-GitHub-Api-Version", "2022-11-28")] in
  print "";;
  print "Verifying configuration...";;
  print "";;
  try_except
    (response <- get url headers 30;;
     if (status_code response =? 200)%Z then
       data <- lift (json response);;
       print_success "Verification successful";;
       print "";;
       print "Current settings:";;
       checks <- lift (res_bind (dict_get data "required_status_checks" (VDict []))
                         (fun d => dict_get d "contexts" (VList [])));;
       print ("  • Required status checks: " ++ py_str checks);;
       approvals <- lift (res_bind (dict_get data "required_pull_request_reviews" (VDict []))
                            (fun d => dict_get d "required_approving_review_count" (VInt 0)));;
       print ("  • Required approvals: " ++ py_str approvals);;
       admins <- lift (res_bind (dict_get data "enforce_admins" (VDict []))
                         (fun d => dict_get d "enabled" (VBool false)));;
       print ("  • Enforce for admins: " ++ py_str admins);;
       linear <- lift (res_bind (dict_get data "required_linear_history" (VDict []))
                         (fun d => dict_get d "enabled" (VBool false)));;
       print ("  • Linear history: " ++ py_str linear)
     else
       print_warning "Unable to verify settings (may still be applied)")
    (fun e =>
       match e with
       | RequestException _ =>
           Some (print_warning "Verification request failed (settings may still be applied)")
       | _ => None
       end).

(** [response.lower() not in ["y", "yes"]] is [negb (affirmative response)]. *)
Definition affirmative (response : string) : bool :=
  existsb (String.eqb (PyStr.lower response)) ["y"; "yes"].

(** [', '.join(PROTECTION_CONFIG['required_status_checks']['contexts'])] *)
Definition required_checks : res string :=
  res_bind (getitem PROTECTION_CONFIG "required_status_checks") (fun c =>
  res_bind (getitem c "contexts") (fun l => join_value ", " l)).

(** [PROTECTION_CONFIG['required_pull_request_reviews']['required_approving_review_count']] *)
Definition required_approvals : res value :=
  res_bind (getitem PROTECTION_CONFIG "required_pull_request_reviews") (fun c =>
  getitem c "required_approving_review_count").

Definition main (g : globals) : M unit :=
  print_header "Branch Protection Setup";;
  let owner := Some (OWNER g) in
  let repo := Some (REPO g) in
  coordinates <-
    (if negb (truthy owner) || negb (truthy repo) then
       print_info "Auto-detecting repository from git remote...";;
       detected <- get_repo_info;;
       let (owner, repo) := detected in
       (if negb (truthy owner) || negb (truthy repo) then
          print_error "Unable to detect repository. Please set GITHUB_OWNER and GITHUB_REPO";;
          print "";;
          print "Usage:";;
          print "  export GITHUB_OWNER=your-username";;
          print "  export GITHUB_REPO=your-repo";;
          print "  python setup-branch-protection.py";;
          sys_exit 1
        else ret tt);;
       ret (owner, repo)
     else ret (owner, repo));;
  let (owner, repo) := coordinates in
  (if String.eqb (GITHUB_TOKEN g) "" then
     print_error "GITHUB_TOKEN environment variable not set";;
     print "";;
     print "Get your token from: https://github.com/settings/tokens";;
     print "Required scopes: repo (full control)";;
     print "";;
     print "Then set it:";;
     print "  export GITHUB_TOKEN=your_token_here";;
     print "";;
     print "Or use GitHub CLI:";;
     print "  export GITHUB_TOKEN=$(gh auth token)";;
     sys_exit 1
   else ret tt);;
  print ("📦 Repository: " ++ fstr owner ++ "/" ++ fstr repo);;
  print ("🌿 Branch: " ++ BRANCH);;
  print "";;
  print "Configuration to be applied:";;
  print "";;
  print "✅ Require status checks to pass before merging";;
  checks <- lift required_checks;;
  print ("   - Required checks: " ++ checks);;
  print "   - Require branch to be up to date";;
  print "";;
  print "✅ Require pull request reviews";;
  approvals <- lift required_approvals;;
  print ("   - Required approving reviews: " ++ py_str approvals);;
  print "   - Dismiss stale reviews on new commits";;
  print "   - Require approval of most recent push";;
  print "";;
  print "✅ Require conversation resolution before merging";;
  print "✅ Require linear history (no merge commits)";;
  print "✅ Enforce restrictions for administrators";;
  print "❌ Block force pushes";;
  print "❌ Block branch deletion";;
  print "";;
  response <- py_input "Apply these settings? (y/N): ";;
  (if negb (affirmative response) then
     print_warning "Cancelled";;
     sys_exit 0
   else ret tt);;
  print "";;
  success <- apply_branch_protection owner repo BRANCH (GITHUB_TOKEN g);;
  if success then
    print "";;
    print "Summary:";;
    print ("  • Direct pushes to '" ++ BRANCH ++ "' are now blocked");;
    print "  • All changes must go through Pull Requests";;
    checks <- lift required_checks;;
    print ("  • CI jobs (" ++ checks ++ ") must pass");;
    approvals <- lift required_approvals;;
    print ("  • " ++ py_str approvals ++ " approval(s) required");;
    print "";;
    print "View settings at:";;
    print ("  https://github.com/" ++ fstr owner ++ "/" ++ fstr repo
           ++ "/settings/branches");;
    verify_protection owner repo BRANCH (GITHUB_TOKEN g);;
    print "";;
    print_header "Setup Complete!"
  else
    print "";;
    print_header "Setup Failed";;
    sys_exit 1.

(** The module run as a script: the module-level bindings, then the
    [__main__] guard. *)
Definition script : M unit :=
  g <- module_init;;
  try_except (main g)
    (fun e =>
       match e with
       | KeyboardInterrupt =>
           Some (print "";;
                 print_warning "Cancelled by user";;
                 sys_exit 0)
       | _ => None
       end).

(** How the process ends. *)
Inductive outcome : Type :=
| Finished
| Exited (code : Z)
| Traceback (e : exn).

Definition exit_code (o : outcome) : Z :=
  match o with
  | Finished => 0
  | Exited code => code
  | Traceback KeyboardInterrupt => 130
  | Traceback _ => 1
  end.

Definition run (w : world) : list event * outcome :=
  let (t, r) := script w in
  (t, match r with
      | Val _ => Finished
      | Exc (SystemExit code) => Exited code
      | Exc e => Traceback e
      end).

End Script.

(** ** Vocabulary of the statements *)

Definition git_argv : list string := ["git"; "remote"; "get-url"; "origin"].

Definition prompt : string := "Apply these settings? (y/N): ".

(** What [os.getenv(name, "")] gives in [w]. *)
Definition env_or_empty (w : world) (name : string) : string :=
  match environ w !! name with
  | Some v => v
  | None => ""
  end.

Definition globals_of (w : world) : globals :=
  {| OWNER := env_or_empty w "GITHUB_OWNER";
     REPO := env_or_empty w "GITHUB_REPO";
     GITHUB_TOKEN := env_or_empty w "GITHUB_TOKEN" |}.


Definition is_network (e : event) : bool :=
  match e with
  | Put _ | Get _ => true
  | _ => false
  end.

(** The HTTP calls of a trace. *)
Definition network_calls (t : list event) : list event :=
  List.filter is_network t.

(** The lines a trace prints, with the stream of each. *)
Fixpoint printed (t : list event) : list (stream * string) :=
  match t with
  | [] => []
  | Print file line :: rest => (file, line) :: printed rest
  | _ :: rest => printed rest
  end.


(** The two styles of remote URL. *)
Inductive url_style : Type := Https | Ssh.

Definition remote_url (style : url_style) (host owner repo : string)
    (dot_git : bool) : string :=
  match style with
  | Https => "https://" ++ host ++ "/"
  | Ssh => "git@" ++ host ++ ":"
  end ++ owner ++ "/" ++ repo ++ (if dot_git then ".git" else "").

(** Coordinate resolution gives [(owner, repo)] whenever [git] prints the
    URL of that style, host and path, surrounded by white space only. *)
Definition extracts (style : url_style) (host owner repo : string)
    (dot_git : bool) : Prop :=
  forall (w : world) (out : string),
    subprocess_run w git_argv = Val out ->
    PyStr.strip out = remote_url style host owner repo dot_git ->
    get_repo_info w = ([Run git_argv], Val (Some owner, Some repo)).

(** The coordinates of a run are [(owner, repo)]: both variables are set,
    or one is missing and the remote URL gives the pair. *)
Definition resolves (w : world) (owner repo : string) : Prop :=
  owner <> "" /\ repo <> "" /\
  (env_or_empty w "GITHUB_OWNER" = owner /\ env_or_empty w "GITHUB_REPO" = repo
   \/ (env_or_empty w "GITHUB_OWNER" = "" \/ env_or_empty w "GITHUB_REPO" = "")
      /\ snd (get_repo_info w) = Val (Some owner, Some repo)).

Definition api_url (owner repo : string) : string :=
  "https://api.github.com/repos/" ++ owner ++ "/" ++ repo
  ++ "/branches/master/protection".

Definition api_headers (token : string) : list (string * string) :=
  [("Accept", "application/vnd.github+json");
   ("Authorization", "Bearer " ++ token);
   ("X-GitHub-Api-Version", "2022-11-28")].

Definition put_request (owner repo token : string) : request :=
  {| url := api_url owner repo; headers := api_headers token;
     json_body := Some PROTECTION_CONFIG; timeout := 30 |}.

Definition get_request (owner repo token : string) : request :=
  {| url := api_url owner repo; headers := api_headers token;
     json_body := None; timeout := 30 |}.



(** What [get_repo_info] makes of the standard output [out] of [git]. *)
Definition parsed (out : string) : res (option string * option string) :=
  let remote_url := PyStr.strip out in
  if PyStr.str_in "github.com" remote_url then
    let remote_url := PyStr.replace remote_url ".git" "" in
    match nth_error (if PyStr.str_in "https://" remote_url
                     then PyStr.split remote_url "github.com/"
                     else PyStr.split remote_url ":") 1 with
    | Some path =>
        match PyStr.split path "/" with
        | p0 :: p1 :: _ => Val (Some p0, Some p1)
        | _ => Val (None, None)
        end
    | None => Exc IndexError
    end
  else Val (None, None).

(** The run gets to the apply step, with these coordinates and token:
    the coordinates resolve, the token is set, and the answer at the
    prompt is affirmative. *)
Definition confirmed (w : world) (owner repo token : string) : Prop :=
  resolves w owner repo /\
  env_or_empty w "GITHUB_TOKEN" = token /\ token <> "" /\
  exists line, input w prompt = Val line /\ affirmative line = true.

(** The ways the verification read can fail: a status other than 200, a
    body that [response.json()] cannot decode, a transport exception. *)
Inductive verification_fails : res response -> Prop :=
| fails_status (g : response) :
    status_code g <> 200%Z -> verification_fails (Val g)
| fails_body (g : response) (msg : string) :
    status_code g = 200%Z -> json g = Exc (RequestException msg) ->
    verification_fails (Val g)
| fails_transport (msg : string) :
    verification_fails (Exc (RequestException msg)).

(** A PUT carries the static policy. *)
Definition carries_policy (e : event) : Prop :=
  match e with
  | Put r => json_body r = Some PROTECTION_CONFIG
  | _ => True
  end.

(** An HTTP call goes to the protection endpoint of [master]. *)
Definition targets_master (e : event) : Prop :=
  match e with
  | Put r | Get r => PyStr.endswith (url r) "/branches/master/protection" = true
  | _ => True
  end.


(** The banner [print_header text] prints. *)
Definition banner (text : string) : list event :=
  [Print stdout ""; Print stdout (PyStr.mul "=" 60);
   Print stdout ("  " ++ text);
   Print stdout (PyStr.mul "=" 60); Print stdout ""].

(** What [main] prints when it gives up on the coordinates. *)
Definition usage : list event :=
  [Print stderr "❌ Unable to detect repository. Please set GITHUB_OWNER and GITHUB_REPO";
   Print stdout "";
   Print stdout "Usage:";
   Print stdout "  export GITHUB_OWNER=your-username";
   Print stdout "  export GITHUB_REPO=your-repo";
   Print stdout "  python setup-branch-protection.py"].

(** ** Sample worlds *)

Definition nl : string := String (ascii_of_nat 10) "".

(** No variable is set, [git] prints [out], nobody is at the prompt and
    the network is down. *)
Definition git_prints (out : string) : world :=
  {| environ := ∅;
     subprocess_run := fun _ => Val out;
     input := fun _ => Exc EOFError;
     requests_put := fun _ => Exc (RequestException "unreachable");
     requests_get := fun _ => Exc (RequestException "unreachable") |}.

(** A stand-in for the interpreter's [repr]. *)
Definition sample_repr (v : value) : string := "<value>".

Definition answer (status : Z) : response :=
  {| status_code := status; text := "{}"; json := Val (VDict []) |}.

(** Owner, repository and token are set; [line] is what the prompt
    reads, and the service gives the two answers. *)
Definition session (line : res string) (put_answer get_answer : res response)
    : world :=
  {| environ := <["GITHUB_OWNER" := "octo"]>
                  (<["GITHUB_REPO" := "demo"]>
                     (<["GITHUB_TOKEN" := "secret"]> ∅));
     subprocess_run := fun _ => Exc CalledProcessError;
     input := fun _ => line;
     requests_put := fun _ => put_answer;
     requests_get := fun _ => get_answer |}.




(** The service answers the PUT with status 502 and a body of three
    lines. *)
Definition bad_gateway : world :=
  session (Val "y")
    (Val {| status_code := 502;
            text := "<html>" ++ nl ++ "<h1>502 Bad Gateway</h1>" ++ nl ++ "</html>";
            json := Exc (RequestException "Expecting value") |})
    (Val (answer 200)).

(** ** Properties of computations *)

(** Every event of every run of [m] satisfies [P]. *)
Definition always {A : Type} (P : event -> Prop) (m : M A) : Prop :=
  forall w : world, Forall P (fst (m w)).

(** An event of [main]: no read of the environment, and an HTTP call
    only to the protection endpoint, with the headers built from [token]
    and, for the PUT, the static policy as its body. *)
Definition wellformed (token : string) (e : event) : Prop :=
  match e with
  | Put r => exists owner repo, r = put_request owner repo token
  | Get r => exists owner repo, r = get_request owner repo token
  | Getenv _ => False
  | _ => True
  end.



(** What [apply_branch_protection] does before it looks at the answer. *)
Definition applying (owner repo token : string) : list event :=
  [Print stdout "Applying branch protection..."; Print stdout "";
   Put (put_request owner repo token)].

(** What [verify_protection] does before it looks at the answer. *)
Definition verifying (owner repo token : string) : list event :=
  [Print stdout ""; Print stdout "Verifying configuration..."; Print stdout "";
   Get (get_request owner repo token)].

(** The three module-level reads. *)
Definition module_reads : list event :=
  [Getenv "GITHUB_OWNER"; Getenv "GITHUB_REPO"; Getenv "GITHUB_TOKEN"].

(** ** Vocabulary of the further properties *)

(** A remote URL on [github.com], with any path behind the host. *)
Definition github (style : url_style) (path : string) (dot_git : bool) : string :=
  match style with
  | Https => "https://github.com/"
  | Ssh => "git@github.com:"
  end ++ path ++ (if dot_git then ".git" else "").

(** Coordinate resolution ends with [result] whenever [git] prints
    [remote], surrounded by white space only. *)
Definition yields (remote : string)
    (result : res (option string * option string)) : Prop :=
  forall (w : world) (out : string),
    subprocess_run w git_argv = Val out ->
    PyStr.strip out = remote ->
    get_repo_info w = ([Run git_argv], result).

(** The path does not hold the text the URL is split at. *)
Definition path_ok (style : url_style) (path : string) : Prop :=
  match style with
  | Https => PyStr.str_in "github.com/" path = false
  | Ssh => PyStr.count ":" path = 0
  end.

(** What [data.get(key, {}).get(sub, default)] gives; [None] when
    [data], or what it holds under [key], has no [get]. *)
Definition field (data : value) (key sub : string) (default : value)
    : option value :=
  match data with
  | VDict items =>
      match assoc items key with
      | None => Some default
      | Some (VDict inner) =>
          Some (match assoc inner sub with Some v => v | None => default end)
      | Some _ => None
      end
  | _ => None
  end.

(** The request [apply_branch_protection] sends. *)
Definition put_of (owner repo : option string) (branch token : string)
    : request :=
  {| url := "https://api.github.com/repos/" ++ fstr owner ++ "/" ++ fstr repo
            ++ "/branches/" ++ branch ++ "/protection";
     headers := api_headers token;
     json_body := Some PROTECTION_CONFIG;
     timeout := 30 |}.

Definition is_request_exception (e : exn) : bool :=
  match e with
  | RequestException _ => true
  | _ => false
  end.

(** The lines a trace writes to the standard error stream. *)
Fixpoint stderr_lines (t : list event) : list string :=
  match t with
  | [] => []
  | Print stderr line :: rest => line :: stderr_lines rest
  | _ :: rest => stderr_lines rest
  end.

(** The subprocesses a trace starts. *)
Fixpoint subprocesses (t : list event) : list (list string) :=
  match t with
  | [] => []
  | Run argv :: rest => argv :: subprocesses rest
  | _ :: rest => subprocesses rest
  end.

(** A text written to the standard error stream starts with the error
    mark. *)
Definition error_marked (e : event) : Prop :=
  match e with
  | Print stderr line => PyStr.startswith line "❌ " = true
  | _ => True
  end.

(** An event that is no line on the standard error stream. *)
Definition on_stdout (e : event) : Prop :=
  match e with
  | Print stderr _ => False
  | _ => True
  end.

Definition no_subprocess (e : event) : Prop :=
  match e with
  | Run _ => False
  | _ => True
  end.

(** How the process ends when [e] comes out of [main]. *)
Definition ending (e : exn) : outcome :=
  match e with
  | SystemExit code => Exited code
  | KeyboardInterrupt => Exited 0
  | _ => Traceback e
  end.

(** Both coordinate variables are set, and not to the empty string. *)
Definition both_set (w : world) : bool :=
  truthy (Some (env_or_empty w "GITHUB_OWNER"))
  && truthy (Some (env_or_empty w "GITHUB_REPO")).

(** What [main] does to detect the coordinates. *)
Definition detecting : list event :=
  [Print stdout "ℹ️  Auto-detecting repository from git remote...";
   Run git_argv].

(** How every run of [main] starts. *)
Definition start (w : world) : list event :=
  (banner "Branch Protection Setup"
   ++ if both_set w then [] else detecting)%list.

(** What [main] prints when the token is missing. *)
Definition token_help : list event :=
  [Print stderr "❌ GITHUB_TOKEN environment variable not set";
   Print stdout "";
   Print stdout "Get your token from: https://github.com/settings/tokens";
   Print stdout "Required scopes: repo (full control)";
   Print stdout "";
   Print stdout "Then set it:";
   Print stdout "  export GITHUB_TOKEN=your_token_here";
   Print stdout "";
   Print stdout "Or use GitHub CLI:";
   Print stdout "  export GITHUB_TOKEN=$(gh auth token)"].

(** The policy as [main] shows it, and the prompt. *)
Definition display (owner repo : string) : list event :=
  [Print stdout ("📦 Repository: " ++ owner ++ "/" ++ repo);
   Print stdout "🌿 Branch: master";
   Print stdout "";
   Print stdout "Configuration to be applied:";
   Print stdout "";
   Print stdout "✅ Require status checks to pass before merging";
   Print stdout "   - Required checks: quality, deploy";
   Print stdout "   - Require branch to be up to date";
   Print stdout "";
   Print stdout "✅ Require pull request reviews";
   Print stdout "   - Required approving reviews: 1";
   Print stdout "   - Dismiss stale reviews on new commits";
   Print stdout "   - Require approval of most recent push";
   Print stdout "";
   Print stdout "✅ Require conversation resolution before merging";
   Print stdout "✅ Require linear history (no merge commits)";
   Print stdout "✅ Enforce restrictions for administrators";
   Print stdout "❌ Block force pushes";
   Print stdout "❌ Block branch deletion";
   Print stdout "";
   Input prompt].

(** What [main] prints after a successful apply. *)
Definition summary (owner repo : string) : list event :=
  [Print stdout "";
   Print stdout "Summary:";
   Print stdout "  • Direct pushes to 'master' are now blocked";
   Print stdout "  • All changes must go through Pull Requests";
   Print stdout "  • CI jobs (quality, deploy) must pass";
   Print stdout "  • 1 approval(s) required";
   Print stdout "";
   Print stdout "View settings at:";
   Print stdout ("  https://github.com/" ++ owner ++ "/" ++ repo
                 ++ "/settings/branches")].

Section Paths.
Variable repr : value -> string.
Variable w : world.

(** The ways [main] goes on once it has the coordinates [(owner, repo)]:
    what it does from there, and how it ends. *)
Inductive proceeds (owner repo : string) : list event -> res unit -> Prop :=
| no_token :
    env_or_empty w "GITHUB_TOKEN" = "" ->
    proceeds owner repo token_help (Exc (SystemExit 1))
| prompt_raised (e : exn) :
    env_or_empty w "GITHUB_TOKEN" <> "" ->
    input w prompt = Exc e ->
    proceeds owner repo (display owner repo) (Exc e)
| declined (line : string) :
    env_or_empty w "GITHUB_TOKEN" <> "" ->
    input w prompt = Val line -> affirmative line = false ->
    proceeds owner repo
      (display owner repo ++ [Print stdout "⚠️  Cancelled"])%list
      (Exc (SystemExit 0))
| apply_raised (ta : list event) (e : exn) :
    confirmed w owner repo (env_or_empty w "GITHUB_TOKEN") ->
    apply_branch_protection (Some owner) (Some repo) BRANCH
      (env_or_empty w "GITHUB_TOKEN") w = (ta, Exc e) ->
    proceeds owner repo
      (display owner repo ++ Print stdout "" :: ta)%list (Exc e)
| apply_failed (ta : list event) :
    confirmed w owner repo (env_or_empty w "GITHUB_TOKEN") ->
    apply_branch_protection (Some owner) (Some repo) BRANCH
      (env_or_empty w "GITHUB_TOKEN") w = (ta, Val false) ->
    proceeds owner repo
      (display owner repo ++ Print stdout "" :: ta
       ++ Print stdout "" :: banner "Setup Failed")%list
      (Exc (SystemExit 1))
| verify_raised (ta tv : list event) (e : exn) :
    confirmed w owner repo (env_or_empty w "GITHUB_TOKEN") ->
    apply_branch_protection (Some owner) (Some repo) BRANCH
      (env_or_empty w "GITHUB_TOKEN") w = (ta, Val true) ->
    verify_protection repr (Some owner) (Some repo) BRANCH
      (env_or_empty w "GITHUB_TOKEN") w = (tv, Exc e) ->
    proceeds owner repo
      (display owner repo ++ Print stdout "" :: ta
       ++ summary owner repo ++ tv)%list
      (Exc e)
| completed (ta tv : list event) :
    confirmed w owner repo (env_or_empty w "GITHUB_TOKEN") ->
    apply_branch_protection (Some owner) (Some repo) BRANCH
      (env_or_empty w "GITHUB_TOKEN") w = (ta, Val true) ->
    verify_protection repr (Some owner) (Some repo) BRANCH
      (env_or_empty w "GITHUB_TOKEN") w = (tv, Val tt) ->
    proceeds owner repo
      (display owner repo ++ Print stdout "" :: ta
       ++ summary owner repo ++ tv
       ++ Print stdout "" :: banner "Setup Complete!")%list
      (Val tt).

(** The ways through [main]. *)
Inductive path : list event -> res unit -> Prop :=
| detect_raised (e : exn) :
    both_set w = false ->
    get_repo_info w = ([Run git_argv], Exc e) ->
    path (start w) (Exc e)
| detect_failed (owner repo : option string) :
    both_set w = false ->
    get_repo_info w = ([Run git_argv], Val (owner, repo)) ->
    truthy owner && truthy repo = false ->
    path (start w ++ usage)%list (Exc (SystemExit 1))
| resolved (owner repo : string) (t : list event) (r : res unit) :
    resolves w owner repo ->
    proceeds owner repo t r ->
    path (start w ++ t)%list r.

End Paths.

(** A 200 answer whose body decodes to [data]. *)
Definition body (data : value) : response :=
  {| status_code := 200; text := "..."; json := Val data |}.

(** A body as the service gives it: the settings are objects. *)
Definition active_policy : value :=
  VDict [("required_status_checks",
            VDict [("contexts", VList [VStr "quality"; VStr "deploy"])]);
         ("required_pull_request_reviews",
            VDict [("required_approving_review_count", VInt 1)]);
         ("enforce_admins", VDict [("enabled", VBool true)])].

(** * Facts about the string operations *)

Module PyStrFacts.
Import PyStr.

Lemma app_assoc (a b c : string) : (a ++ b) ++ c = a ++ b ++ c.
Proof. induction a as [|x a IH]; simpl; [reflexivity | now rewrite IH]. Qed.

Lemma app_nil_r (a : string) : a ++ "" = a.
Proof. induction a as [|x a IH]; simpl; [reflexivity | now rewrite IH]. Qed.

Lemma startswith_app (p s : string) : startswith (p ++ s) p = true.
Proof.
  induction p as [|x p IH]; simpl; [reflexivity |].
  now rewrite Ascii.eqb_refl, IH.
Qed.

Lemma startswith_inv (p s : string) :
  startswith s p = true -> exists t, s = p ++ t.
Proof.
  revert s. induction p as [|x p IH]; intros s H.
  - exists s. reflexivity.
  - destruct s as [|y s]; simpl in H; [discriminate |].
    apply andb_true_iff in H as [Hxy Hp].
    apply Ascii.eqb_eq in Hxy. subst y.
    destruct (IH s Hp) as [t ->]. exists t. reflexivity.
Qed.

Lemma str_in_inv (sub s : string) :
  str_in sub s = true -> exists a b, s = a ++ sub ++ b.
Proof.
  induction s as [|x s IH]; simpl; intros H.
  - rewrite orb_false_r in H. apply startswith_inv in H as [t ->].
    exists "", t. reflexivity.
  - apply orb_true_iff in H as [H | H].
    + apply startswith_inv in H as [t ->]. exists "", t. reflexivity.
    + destruct (IH H) as (a & b & ->). exists (String x a), b. reflexivity.
Qed.

Lemma str_in_start (sub s : string) :
  startswith s sub = true -> str_in sub s = true.
Proof. intros H. destruct s; simpl; rewrite H; reflexivity. Qed.

Lemma str_in_app (sub a b : string) : str_in sub (a ++ sub ++ b) = true.
Proof.
  induction a as [|x a IH]; simpl.
  - apply str_in_start, startswith_app.
  - rewrite IH. apply orb_true_r.
Qed.

Lemma count_app (c : ascii) (a b : string) :
  count c (a ++ b) = count c a + count c b.
Proof. induction a as [|x a IH]; simpl; [reflexivity | rewrite IH; lia]. Qed.

Lemma str_in_count (c : ascii) (sub s : string) :
  str_in sub s = true -> count c sub <= count c s.
Proof.
  intros H. apply str_in_inv in H as (a & b & ->).
  rewrite !count_app. lia.
Qed.

(** An occurrence cannot run across a character that [p] does not have. *)
Lemma startswith_across (c : ascii) (p a b : string) :
  count c p = 0 ->
  startswith (a ++ String c b) p = true -> startswith a p = true.
Proof.
  revert a. induction p as [|x p IH]; intros a Hc H; [reflexivity |].
  simpl in Hc.
  destruct a as [|y a]; simpl in H |- *.
  - apply andb_true_iff in H as [Hxc _]. rewrite Hxc in Hc. discriminate.
  - apply andb_true_iff in H as [Hxy Hp]. rewrite Hxy. simpl.
    apply IH; [| exact Hp]. destruct (Ascii.eqb x c); [discriminate | exact Hc].
Qed.

Lemma str_in_cons (sub : string) (x : ascii) (s : string) :
  str_in sub (String x s) = false ->
  startswith (String x s) sub = false /\ str_in sub s = false.
Proof. simpl. intros H. apply orb_false_iff in H. exact H. Qed.

Lemma count_single (c : ascii) (s : string) :
  count c s = 0 -> str_in (String c "") s = false.
Proof.
  induction s as [|x s IH]; simpl; intros H; [reflexivity |].
  rewrite Ascii.eqb_sym.
  destruct (Ascii.eqb x c); [discriminate |]. simpl. apply IH. exact H.
Qed.

Lemma replace_none (old new s : string) :
  str_in old s = false -> replace_from 0 s old new = s.
Proof.
  induction s as [|x s IH]; intros H; [reflexivity |].
  apply str_in_cons in H as [H1 H2].
  cbn [replace_from]. rewrite H1, (IH H2). reflexivity.
Qed.

Lemma replace_across (c : ascii) (old new a b : string) :
  count c old = 0 -> str_in old a = false ->
  replace_from 0 (a ++ String c b) old new
  = a ++ replace_from 0 (String c b) old new.
Proof.
  intros Hc. induction a as [|x a IH]; intros H; [reflexivity |].
  apply str_in_cons in H as [H1 H2].
  change (String x a ++ String c b) with (String x (a ++ String c b)).
  cbn [replace_from].
  destruct (startswith (String x (a ++ String c b)) old) eqn:E.
  - apply (startswith_across c old (String x a) b Hc) in E. congruence.
  - rewrite (IH H2). reflexivity.
Qed.

(** The suffix [.git] goes, and nothing else, when the rest is free of it. *)
Lemma replace_dot_git (s : string) :
  str_in ".git" s = false -> replace_from 0 (s ++ ".git") ".git" "" = s.
Proof.
  induction s as [|x s IH]; intros H; [reflexivity |].
  apply str_in_cons in H as [H1 H2].
  change (String x s ++ ".git") with (String x (s ++ ".git")).
  cbn [replace_from].
  destruct (startswith (String x (s ++ ".git")) ".git") eqn:E.
  - exfalso. apply startswith_inv in E as [t E].
    destruct s as [|a [|b [|c s]]]; simpl in E; try discriminate.
    injection E as -> -> -> -> _.
    simpl in H1. discriminate.
  - rewrite (IH H2). reflexivity.
Qed.

Lemma split_none (sep s : string) :
  str_in sep s = false -> split_from 0 s sep = [s].
Proof.
  induction s as [|x s IH]; intros H; [reflexivity |].
  apply str_in_cons in H as [H1 H2].
  cbn [split_from]. rewrite H1, (IH H2). reflexivity.
Qed.

Lemma split_char (c : ascii) (a b : string) :
  count c a = 0 ->
  split_from 0 (a ++ String c b) (String c "")
  = a :: split_from 0 b (String c "").
Proof.
  induction a as [|x a IH]; intros H.
  - simpl. rewrite Ascii.eqb_refl. reflexivity.
  - simpl in H.
    change (String x a ++ String c b) with (String x (a ++ String c b)).
    cbn [split_from startswith]. rewrite Ascii.eqb_sym.
    destruct (Ascii.eqb x c); [discriminate |].
    simpl. rewrite IH by exact H. reflexivity.
Qed.

Lemma split_pair (c : ascii) (a b : string) :
  count c a = 0 -> count c b = 0 ->
  split (a ++ String c b) (String c "") = [a; b].
Proof.
  intros Ha Hb. unfold split.
  rewrite (split_char c a b Ha), (split_none _ b (count_single c b Hb)).
  reflexivity.
Qed.

Lemma endswith_app (a suf : string) : endswith (a ++ suf) suf = true.
Proof.
  induction a as [|x a IH].
  - destruct suf; cbn [append endswith]; rewrite String.eqb_refl; reflexivity.
  - simpl. rewrite IH. apply orb_true_r.
Qed.

(** A string is cut at its first [c] in one way only. *)
Lemma cut_unique (c : ascii) (a a' b b' : string) :
  count c a = 0 -> count c a' = 0 ->
  a ++ String c b = a' ++ String c b' -> a = a' /\ b = b'.
Proof.
  revert a'. induction a as [|x a IH]; intros [|y a'] Ha Ha' E; simpl in *.
  - injection E as ->. split; reflexivity.
  - injection E as <- _. rewrite Ascii.eqb_refl in Ha'. discriminate.
  - injection E as -> _. rewrite Ascii.eqb_refl in Ha. discriminate.
  - injection E as -> E.
    destruct (Ascii.eqb y c); [discriminate |].
    destruct (IH a' Ha Ha' E) as [-> ->]. split; reflexivity.
Qed.

End PyStrFacts.

(** * Facts about remote URLs *)

Module PathFacts.
Import PyStr PyStrFacts.

Lemma path_git_free (owner repo : string) :
  str_in ".git" owner = false -> str_in ".git" repo = false ->
  str_in ".git" (owner ++ "/" ++ repo) = false.
Proof.
  intros Ho Hr. induction owner as [|x owner IH].
  - simpl. exact Hr.
  - apply str_in_cons in Ho as [H1 H2].
    change (String x owner ++ "/" ++ repo) with (String x (owner ++ "/" ++ repo)).
    cbn [str_in]. rewrite (IH H2), orb_false_r.
    destruct (startswith (String x (owner ++ "/" ++ repo)) ".git") eqn:E; [| reflexivity].
    apply (startswith_across "/" ".git" (String x owner) repo) in E; [congruence | reflexivity].
Qed.

Lemma path_host_free (owner repo : string) :
  count "/" owner = 0 -> count "/" repo = 0 ->
  endswith owner "github.com" = false ->
  str_in "github.com/" (owner ++ "/" ++ repo) = false.
Proof.
  intros Ho Hr He.
  destruct (str_in "github.com/" (owner ++ "/" ++ repo)) eqn:E; [exfalso | reflexivity].
  apply str_in_inv in E as (a & b & E).
  change (owner ++ "/" ++ repo) with (owner ++ String "/" repo) in E.
  change ("github.com/" ++ b) with ("github.com" ++ String "/" b) in E.
  rewrite <- (app_assoc a "github.com" (String "/" b)) in E.
  assert (Ha : count "/" (a ++ "github.com") = 0).
  { apply (f_equal (count "/")) in E. rewrite !count_app in E.
    rewrite count_app. simpl in E |- *. lia. }
  destruct (cut_unique "/" owner (a ++ "github.com") repo b Ho Ha E) as [-> _].
  rewrite endswith_app in He. discriminate.
Qed.

Lemma path_scheme_free (owner repo : string) :
  count "/" owner = 0 -> count "/" repo = 0 ->
  str_in "https://" ("git@github.com:" ++ owner ++ "/" ++ repo) = false.
Proof.
  intros Ho Hr.
  destruct (str_in "https://" _) eqn:E; [exfalso | reflexivity].
  apply (str_in_count "/") in E.
  rewrite !count_app in E. simpl in E. lia.
Qed.

Lemma replace_path (path : string) (dot_git : bool) :
  str_in ".git" path = false ->
  replace_from 0 (path ++ (if dot_git then ".git" else "")) ".git" "" = path.
Proof.
  intros H. destruct dot_git.
  - apply replace_dot_git, H.
  - rewrite app_nil_r. apply replace_none, H.
Qed.

End PathFacts.

(** * Coordinate resolution *)

Section Resolution.
Import PyStr PyStrFacts PathFacts.

Lemma get_repo_info_run (w : world) (out : string) :
  subprocess_run w git_argv = Val out ->
  get_repo_info w = ([Run git_argv], parsed out).
Proof.
  intros H.
  cbv [get_repo_info try_except bind subprocess_run_stdout emit ask lift ret app
       parsed index res_bind].
  fold git_argv. rewrite H.
  destruct (str_in "github.com" (strip out)); [| reflexivity].
  destruct (str_in "https://" _);
    (destruct (nth_error _ 1) as [path |]; [| reflexivity]);
    destruct (split path "/") as [| p0 [| p1 rest]]; reflexivity.
Qed.

Lemma replace_remote (style : url_style) (owner repo : string) (dot_git : bool) :
  str_in ".git" owner = false -> str_in ".git" repo = false ->
  replace (remote_url style "github.com" owner repo dot_git) ".git" ""
  = remote_url style "github.com" owner repo false.
Proof.
  intros Go Gr. pose proof (path_git_free owner repo Go Gr) as Hp.
  unfold replace, remote_url. rewrite app_nil_r.
  destruct style; simpl; repeat f_equal;
    change (owner ++ String "/" (repo ++ (if dot_git then ".git" else "")))
      with (owner ++ String "/" repo ++ (if dot_git then ".git" else ""));
    rewrite <- app_assoc; apply replace_path, Hp.
Qed.

Lemma split_https (path : string) :
  str_in "github.com/" path = false ->
  split ("https://github.com/" ++ path) "github.com/" = ["https://"; path].
Proof.
  intros H. unfold split. simpl. rewrite (split_none _ path H). reflexivity.
Qed.

Lemma split_ssh (path : string) :
  count ":" path = 0 ->
  split ("git@github.com:" ++ path) ":" = ["git@github.com"; path].
Proof. intros H. apply (split_pair ":" "git@github.com" path); [reflexivity | exact H]. Qed.

Lemma get_repo_info_raises (w : world) (e : exn) :
  subprocess_run w git_argv = Exc e ->
  get_repo_info w =
  ([Run git_argv],
   match e with
   | CalledProcessError => Val (None, None)
   | _ => Exc e
   end).
Proof.
  intros H.
  cbv [get_repo_info try_except bind subprocess_run_stdout emit ask lift ret app].
  fold git_argv. rewrite H. destruct e; reflexivity.
Qed.

Lemma get_repo_info_trace (w : world) : fst (get_repo_info w) = [Run git_argv].
Proof.
  destruct (subprocess_run w git_argv) as [out | e] eqn:E.
  - now rewrite (get_repo_info_run w out E).
  - now rewrite (get_repo_info_raises w e E).
Qed.

Lemma get_repo_info_value (w : world) (v : option string * option string) :
  snd (get_repo_info w) = Val v -> get_repo_info w = ([Run git_argv], Val v).
Proof.
  intros H. pose proof (get_repo_info_trace w) as T.
  destruct (get_repo_info w) as [t r]. simpl in *. now subst.
Qed.

(** C1, as amended.  For a remote URL [https://github.com/<owner>/<repo>]
    or [git@github.com:<owner>/<repo>], with or without the [.git]
    suffix, where neither [owner] nor [repo] has a [/] or contains
    [.git], and where [owner] does not end in [github.com] (first style)
    or neither has a [:] (second style), coordinate resolution returns
    exactly [(owner, repo)]. *)
Theorem github_remote_extracts (style : url_style) (owner repo : string)
    (dot_git : bool) :
  count "/" owner = 0 -> count "/" repo = 0 ->
  str_in ".git" owner = false -> str_in ".git" repo = false ->
  match style with
  | Https => endswith owner "github.com" = false
  | Ssh => count ":" owner = 0 /\ count ":" repo = 0
  end ->
  extracts style "github.com" owner repo dot_git.
Proof.
  intros Ho Hr Go Gr Hs w out Hrun Hstrip.
  rewrite (get_repo_info_run w out Hrun). f_equal.
  unfold parsed. rewrite Hstrip. cbv zeta.
  rewrite (replace_remote style owner repo dot_git Go Gr).
  assert (Hin : str_in "github.com"
                  (remote_url style "github.com" owner repo dot_git) = true)
    by (destruct style; reflexivity).
  rewrite Hin. unfold remote_url. rewrite app_nil_r.
  destruct style.
  - change (("https://" ++ "github.com" ++ "/") ++ owner ++ "/" ++ repo)
      with ("https://github.com/" ++ owner ++ "/" ++ repo).
    assert (Hs' : str_in "https://"
                    ("https://github.com/" ++ owner ++ "/" ++ repo) = true)
      by reflexivity.
    rewrite Hs', (split_https _ (path_host_free owner repo Ho Hr Hs)).
    cbn [nth_error].
    change (owner ++ "/" ++ repo) with (owner ++ String "/" repo).
    rewrite (split_pair "/" owner repo Ho Hr). reflexivity.
  - destruct Hs as [Co Cr].
    change (("git@" ++ "github.com" ++ ":") ++ owner ++ "/" ++ repo)
      with ("git@github.com:" ++ owner ++ "/" ++ repo).
    rewrite (path_scheme_free owner repo Ho Hr), split_ssh.
    + cbn [nth_error].
      change (owner ++ "/" ++ repo) with (owner ++ String "/" repo).
      rewrite (split_pair "/" owner repo Ho Hr). reflexivity.
    + rewrite count_app. simpl. rewrite Co, Cr. reflexivity.
Qed.

(** C1, as stated, fails: a URL of the first style on another host gives
    the empty pair. *)
Lemma other_host_not_extracted :
  ~ extracts Https "gitlab.com" "owner" "repo" false.
Proof.
  intros H.
  specialize (H (git_prints "https://gitlab.com/owner/repo")
                "https://gitlab.com/owner/repo" eq_refl eq_refl).
  vm_compute in H. discriminate H.
Qed.

(** The [.git] that [replace] removes need not be the suffix: a name that
    contains it comes back shortened. *)
Remark inner_dot_git_is_removed :
  get_repo_info (git_prints ("https://github.com/octo/octo.github.io.git" ++ nl))
  = ([Run git_argv], Val (Some "octo", Some "octohub.io")).
Proof. reflexivity. Qed.

End Resolution.

(** * Reasoning about computations *)

(** ** Invariants of traces *)

Section Always.
Context {A B : Type} (P : event -> Prop).

Lemma always_ret (a : A) : always P (ret a).
Proof. intros w. constructor. Qed.

Lemma always_raise (e : exn) : always P (@raise A e).
Proof. intros w. constructor. Qed.

Lemma always_lift (r : res A) : always P (lift r).
Proof. intros w. constructor. Qed.

Lemma always_ask (f : world -> A) : always P (ask f).
Proof. intros w. constructor. Qed.

Lemma always_emit (e : event) : P e -> always P (emit e).
Proof. intros H w. repeat constructor. exact H. Qed.

Lemma always_bind (m : M A) (f : A -> M B) :
  always P m -> (forall a, always P (f a)) -> always P (bind m f).
Proof.
  intros Hm Hf w. unfold bind. specialize (Hm w).
  destruct (m w) as [t [a | e]]; [| exact Hm].
  specialize (Hf a w). destruct (f a w) as [t' r].
  apply Forall_app. split; assumption.
Qed.

Lemma always_try (m : M A) (h : exn -> option (M A)) :
  always P m -> (forall e k, h e = Some k -> always P k) ->
  always P (try_except m h).
Proof.
  intros Hm Hh w. unfold try_except. specialize (Hm w).
  destruct (m w) as [t [a | e]]; [exact Hm |].
  destruct (h e) as [k |] eqn:E; [| exact Hm].
  specialize (Hh e k E w). destruct (k w) as [t' r].
  apply Forall_app. split; assumption.
Qed.

End Always.

Ltac always_step :=
  match goal with
  | |- always _ (bind _ _) => apply always_bind; [| intros ?]
  | |- always _ (try_except _ _) =>
      apply always_try;
      [| let e := fresh "e" in let k := fresh "k" in let E := fresh "E" in
         intros e k E; destruct e; inversion E; subst; clear E]
  | |- always _ (emit _) => apply always_emit; cbn
  | |- always _ (ret _) => apply always_ret
  | |- always _ (raise _) => apply always_raise
  | |- always _ (sys_exit _) => apply always_raise
  | |- always _ (lift _) => apply always_lift
  | |- always _ (ask _) => apply always_ask
  | |- always _ (if ?b then _ else _) => destruct b
  | |- always _ (let (_, _) := ?p in _) => destruct p
  | |- always _ (match ?x with _ => _ end) => destruct x
  end.

Section Invariant.
Variable repr : value -> string.

Lemma apply_wellformed (owner repo : option string) (token : string) :
  always (wellformed token) (apply_branch_protection owner repo BRANCH token).
Proof.
  unfold apply_branch_protection, put, print_success, print_error, print_info, print, print_to.
  repeat always_step; try exact I.
  all: try (exists (fstr owner), (fstr repo); reflexivity).
Qed.

Lemma verify_wellformed (owner repo : option string) (token : string) :
  always (wellformed token) (verify_protection repr owner repo BRANCH token).
Proof.
  unfold verify_protection, get, print_success, print_warning, print, print_to.
  repeat always_step; try exact I.
  all: try (exists (fstr owner), (fstr repo); reflexivity).
Qed.

Lemma get_repo_info_quiet (P : event -> Prop) :
  P (Run git_argv) -> always P get_repo_info.
Proof.
  intros H. unfold get_repo_info, subprocess_run_stdout.
  repeat always_step; try exact H.
Qed.

Lemma main_wellformed (g : globals) :
  always (wellformed (GITHUB_TOKEN g)) (main repr g).
Proof.
  unfold main, py_input, print_header, print_success, print_error, print_warning, print_info, print, print_to.
  repeat
    match goal with
    | |- always _ (apply_branch_protection _ _ _ _) => apply apply_wellformed
    | |- always _ (verify_protection _ _ _ _ _) => apply verify_wellformed
    | |- always _ get_repo_info => apply get_repo_info_quiet; exact I
    | _ => always_step
    end;
  try exact I.
Qed.
End Invariant.

(** ** Computations that print alike *)


Section Alike.
Context {A B : Type}.






End Alike.







Section Independence.
Variable repr : value -> string.




End Independence.

(** * Runs of the script *)

Lemma module_init_run (w : world) :
  module_init w = (module_reads, Val (globals_of w)).
Proof. reflexivity. Qed.

Lemma truthy_some (s : string) : s <> "" -> truthy (Some s) = true.
Proof. intros H. unfold truthy. apply String.eqb_neq in H. now rewrite H. Qed.

Lemma required_checks_value : required_checks = Val "quality, deploy".
Proof. reflexivity. Qed.

Lemma required_approvals_value : required_approvals = Val (VInt 1).
Proof. reflexivity. Qed.

Lemma network_calls_app (t t' : list event) :
  network_calls (t ++ t')%list = (network_calls t ++ network_calls t')%list.
Proof. apply List.filter_app. Qed.



Lemma api_url_suffix (owner repo : string) :
  PyStr.endswith (api_url owner repo) "/branches/master/protection" = true.
Proof.
  unfold api_url.
  rewrite <- (PyStrFacts.app_assoc owner), <- (PyStrFacts.app_assoc _ repo),
    <- PyStrFacts.app_assoc.
  apply PyStrFacts.endswith_app.
Qed.



(** Runs the monad on what is known; calls of the three functions of the
    script stay as they are, to be rewritten with what is known of them. *)
Ltac exec :=
  cbv beta iota zeta delta
    [main bind ret raise lift emit ask try_except print print_to print_header
     print_info print_error print_warning print_success sys_exit py_input
     fst snd OWNER REPO GITHUB_TOKEN globals_of module_reads banner usage];
  rewrite ?required_checks_value, ?required_approvals_value;
  cbn [app].

(** Computes the HTTP calls of a trace whose pieces are known. *)
Ltac calls :=
  unfold network_calls;
  repeat (cbn [List.filter is_network app] || rewrite List.filter_app);
  rewrite ?List.app_nil_r.

(** Takes [main] through coordinate resolution, by either way of [resolves]. *)
Ltac resolve H :=
  let Ho := fresh "Ho" in let Hr := fresh "Hr" in
  let Eo := fresh "Eo" in let Er := fresh "Er" in
  let He := fresh "He" in let Hg := fresh "Hg" in
  destruct H as (Ho & Hr & [[Eo Er] | [He Hg]]);
  [ rewrite Eo, Er, (truthy_some _ Ho), (truthy_some _ Hr)
  | apply get_repo_info_value in Hg;
    replace (negb (truthy (Some (env_or_empty _ "GITHUB_OWNER")))
             || negb (truthy (Some (env_or_empty _ "GITHUB_REPO")))) with true
      by (destruct He as [-> | ->]; cbn; rewrite ?orb_true_r; reflexivity);
    exec; rewrite Hg; exec; rewrite (truthy_some _ Ho), (truthy_some _ Hr) ];
  cbn [negb orb]; exec.

(** ** The apply step on its own *)

Ltac run_apply owner repo token :=
  unfold apply_branch_protection;
  cbv beta iota zeta delta
    [bind ret raise lift emit ask try_except print print_to print_info
     print_error print_success put fst snd fstr applying];
  change {| url := _; headers := _;
            json_body := Some PROTECTION_CONFIG; timeout := 30 |}
    with (put_request owner repo token).

Lemma apply_answered (w : world) (owner repo token : string) (resp : response) :
  requests_put w (put_request owner repo token) = Val resp ->
  apply_branch_protection (Some owner) (Some repo) BRANCH token w =
  ((applying owner repo token ++
    if (status_code resp =? 200)%Z then
      [Print stdout "✅ Branch protection applied successfully!"]
    else if (status_code resp =? 401)%Z then
      [Print stderr "❌ Authentication failed. Check your GITHUB_TOKEN.";
       Print stdout "ℹ️  Generate a token at: https://github.com/settings/tokens";
       Print stdout "ℹ️  Required scopes: repo (full control)"]
    else if (status_code resp =? 403)%Z then
      [Print stderr "❌ Permission denied. You need admin access to this repository."]
    else if (status_code resp =? 404)%Z then
      [Print stderr ("❌ Repository or branch not found: "
                     ++ owner ++ "/" ++ repo ++ "/master");
       Print stdout "ℹ️  Make sure the branch exists and you have access."]
    else
      [Print stderr ("❌ Failed with status code: "
                     ++ PyStr.of_int (status_code resp));
       Print stderr ("❌ Response: " ++ text resp)])%list,
   Val (status_code resp =? 200)%Z).
Proof.
  intros H. run_apply owner repo token. rewrite H.
  destruct (status_code resp =? 200)%Z; [reflexivity |].
  destruct (status_code resp =? 401)%Z; [reflexivity |].
  destruct (status_code resp =? 403)%Z; [reflexivity |].
  destruct (status_code resp =? 404)%Z; reflexivity.
Qed.

Lemma apply_unanswered (w : world) (owner repo token : string) (e : exn) :
  requests_put w (put_request owner repo token) = Exc e ->
  apply_branch_protection (Some owner) (Some repo) BRANCH token w =
  match e with
  | RequestException msg =>
      ((applying owner repo token
        ++ [Print stderr ("❌ Request failed: " ++ msg)])%list, Val false)
  | _ => (applying owner repo token, Exc e)
  end.
Proof.
  intros H. run_apply owner repo token. rewrite H. destruct e; reflexivity.
Qed.

Section Runs.

Variable repr : value -> string.

(** The [__main__] guard around [main]. *)
Lemma run_main (w : world) :
  run repr w =
  let (t, r) := main repr (globals_of w) w in
  match r with
  | Val _ => ((module_reads ++ t)%list, Finished)
  | Exc KeyboardInterrupt =>
      ((module_reads ++ t
        ++ [Print stdout ""; Print stdout "⚠️  Cancelled by user"])%list,
       Exited 0)
  | Exc (SystemExit code) => ((module_reads ++ t)%list, Exited code)
  | Exc e => ((module_reads ++ t)%list, Traceback e)
  end.
Proof.
  unfold run, script, bind, try_except. rewrite module_init_run.
  destruct (main repr (globals_of w) w) as [t [[] | e]]; [reflexivity |].
  destruct e; reflexivity.
Qed.

(** Every run reads the three variables and then does what [main] does. *)
Lemma run_trace (w : world) :
  exists t, fst (run repr w) = (module_reads ++ t)%list
            /\ Forall (wellformed (env_or_empty w "GITHUB_TOKEN")) t.
Proof.
  rewrite run_main.
  pose proof (main_wellformed repr (globals_of w) w) as H.
  cbn [GITHUB_TOKEN globals_of] in H.
  destruct (main repr (globals_of w) w) as [t [[] | e]]; cbn [fst] in H.
  - exists t. split; [reflexivity | exact H].
  - destruct e;
      try (exists t; split; [reflexivity | exact H]).
    exists (t ++ [Print stdout ""; Print stdout "⚠️  Cancelled by user"])%list.
    split; [reflexivity |]. apply Forall_app. split; [exact H |].
    repeat constructor.
Qed.

Lemma run_forall (P : event -> Prop) (w : world) :
  Forall P module_reads ->
  (forall e, wellformed (env_or_empty w "GITHUB_TOKEN") e -> P e) ->
  Forall P (fst (run repr w)).
Proof.
  intros Hm Hp. destruct (run_trace w) as (t & -> & Ht).
  apply Forall_app. split; [exact Hm |].
  exact (List.Forall_impl P Hp Ht).
Qed.

(** The verification step issues its GET whatever comes back. *)
Lemma verify_calls (w : world) (owner repo token : string) :
  network_calls
    (fst (verify_protection repr (Some owner) (Some repo) BRANCH token w))
  = [Get (get_request owner repo token)].
Proof.
  unfold verify_protection.
  cbv beta iota zeta delta
    [bind ret raise lift emit ask try_except print print_to print_warning
     print_success get app fst snd fstr].
  change {| url := _; headers := _; json_body := None; timeout := 30 |}
    with (get_request owner repo token).
  destruct (requests_get w (get_request owner repo token)) as [g | e].
  - destruct (status_code g =? 200)%Z; [| reflexivity].
    destruct (json g) as [data | e]; [| destruct e; reflexivity].
    repeat match goal with
           | |- context [match res_bind ?a ?b with _ => _ end] =>
               destruct (res_bind a b) as [? | []]
           end; reflexivity.
  - destruct e; reflexivity.
Qed.

Lemma verify_failed (w : world) (owner repo token : string) :
  verification_fails (requests_get w (get_request owner repo token)) ->
  exists notice,
    verify_protection repr (Some owner) (Some repo) BRANCH token w
    = ((verifying owner repo token
        ++ [Print stdout ("⚠️  " ++ notice)])%list, Val tt).
Proof.
  intros H. unfold verify_protection.
  cbv beta iota zeta delta
    [bind ret raise lift emit ask try_except print print_to print_warning
     print_success get fst snd fstr verifying].
  change {| url := _; headers := _; json_body := None; timeout := 30 |}
    with (get_request owner repo token).
  inversion H as [g Hs Hg | g msg Hs Hj Hg | msg Hg]; clear H.
  - apply Z.eqb_neq in Hs. rewrite Hs. eexists. reflexivity.
  - rewrite Hs, Hj. eexists. reflexivity.
  - eexists. reflexivity.
Qed.

(** After a failed apply the run ends with status 1 and no further call. *)
Lemma run_apply_failed (w : world) (owner repo token : string)
    (ta : list event) :
  confirmed w owner repo token ->
  apply_branch_protection (Some owner) (Some repo) BRANCH token w
  = (ta, Val false) ->
  network_calls (fst (run repr w)) = network_calls ta /\
  snd (run repr w) = Exited 1.
Proof.
  intros (Hres & Htok & Hne & line & Hin & Hyes) Ha.
  subst token. apply String.eqb_neq in Hne. unfold prompt in Hin.
  rewrite run_main. exec.
  resolve Hres; rewrite Hne; exec; rewrite Hin; exec; rewrite Hyes;
    cbn [negb]; exec; rewrite Ha; exec; (split; [calls |]; reflexivity).
Qed.

(** After a successful apply the run goes on to the verification step,
    and ends as that step lets it. *)
Lemma run_apply_succeeded (w : world) (owner repo token : string)
    (ta tv : list event) (rv : res unit) :
  confirmed w owner repo token ->
  apply_branch_protection (Some owner) (Some repo) BRANCH token w
  = (ta, Val true) ->
  verify_protection repr (Some owner) (Some repo) BRANCH token w = (tv, rv) ->
  network_calls (fst (run repr w))
  = (network_calls ta ++ network_calls tv)%list /\
  snd (run repr w) =
  match rv with
  | Val _ => Finished
  | Exc (SystemExit code) => Exited code
  | Exc KeyboardInterrupt => Exited 0
  | Exc e => Traceback e
  end.
Proof.
  intros (Hres & Htok & Hne & line & Hin & Hyes) Ha Hv.
  subst token. apply String.eqb_neq in Hne. unfold prompt in Hin.
  rewrite run_main. exec.
  resolve Hres; rewrite Hne; exec; rewrite Hin; exec; rewrite Hyes;
    cbn [negb]; exec; rewrite Ha; exec; rewrite Hv; exec;
    (destruct rv as [[] | []]; exec; (split; [calls |]; reflexivity)).
Qed.

Lemma run_apply_diagnosed (w : world) (owner repo token : string)
    (lines : list event) :
  confirmed w owner repo token ->
  apply_branch_protection (Some owner) (Some repo) BRANCH token w
  = ((applying owner repo token ++ lines)%list, Val false) ->
  network_calls lines = [] ->
  network_calls (fst (run repr w)) = [Put (put_request owner repo token)]
  /\ exit_code (snd (run repr w)) = 1%Z.
Proof.
  intros Hc Ha Hl.
  destruct (run_apply_failed w owner repo token _ Hc Ha) as [-> ->].
  rewrite network_calls_app, Hl. split; reflexivity.
Qed.

(** ** The claims *)

(** C2.  With the run at the apply step: on status 200
    [apply_branch_protection] prints the success line and returns [True],
    and the run goes on to issue the verification GET; on 401, 403 and
    404 it prints the authentication, the permission and the not-found
    diagnostic and returns [False], and the run ends with exit status 1
    after the PUT alone; any other status gives the line with the status
    code and the line with the response body, and exit status 1; a
    transport exception gives the line [Request failed: ...], exit status
    1, and an output that no HTTP response can give. *)
Theorem apply_status_outcomes (w : world) (owner repo token : string) :
  confirmed w owner repo token ->
  let call := apply_branch_protection (Some owner) (Some repo) BRANCH token w in
  let sent := applying owner repo token in
  let calls := network_calls (fst (run repr w)) in
  let code := exit_code (snd (run repr w)) in
  let only_put := calls = [Put (put_request owner repo token)] /\ code = 1%Z in
  (forall resp : response,
     requests_put w (put_request owner repo token) = Val resp ->
     (status_code resp = 200%Z ->
        call = ((sent ++ [Print stdout "✅ Branch protection applied successfully!"])%list,
                Val true)
        /\ calls = [Put (put_request owner repo token);
                    Get (get_request owner repo token)])
     /\ (status_code resp = 401%Z ->
        call = ((sent ++
                 [Print stderr "❌ Authentication failed. Check your GITHUB_TOKEN.";
                  Print stdout "ℹ️  Generate a token at: https://github.com/settings/tokens";
                  Print stdout "ℹ️  Required scopes: repo (full control)"])%list,
                Val false)
        /\ only_put)
     /\ (status_code resp = 403%Z ->
        call = ((sent ++
                 [Print stderr "❌ Permission denied. You need admin access to this repository."])%list,
                Val false)
        /\ only_put)
     /\ (status_code resp = 404%Z ->
        call = ((sent ++
                 [Print stderr ("❌ Repository or branch not found: "
                                ++ owner ++ "/" ++ repo ++ "/master");
                  Print stdout "ℹ️  Make sure the branch exists and you have access."])%list,
                Val false)
        /\ only_put)
     /\ (status_code resp <> 200%Z -> status_code resp <> 401%Z ->
         status_code resp <> 403%Z -> status_code resp <> 404%Z ->
        call = ((sent ++
                 [Print stderr ("❌ Failed with status code: "
                                ++ PyStr.of_int (status_code resp));
                  Print stderr ("❌ Response: " ++ text resp)])%list,
                Val false)
        /\ only_put))
  /\ (forall msg : string,
       requests_put w (put_request owner repo token) = Exc (RequestException msg) ->
       call = ((sent ++ [Print stderr ("❌ Request failed: " ++ msg)])%list,
               Val false)
       /\ only_put
       /\ forall (w' : world) (resp : response),
            requests_put w' (put_request owner repo token) = Val resp ->
            printed (fst (apply_branch_protection (Some owner) (Some repo)
                            BRANCH token w'))
            <> printed (fst call)).
Proof.
  intros Hc. cbv zeta. split.
  - intros resp Hput.
    pose proof (apply_answered w owner repo token resp Hput) as Ha.
    split; [| split; [| split; [| split]]].
    + intros Hs. rewrite Hs in Ha. cbn [Z.eqb Pos.eqb] in Ha.
      split; [exact Ha |].
      destruct (verify_protection repr (Some owner) (Some repo) BRANCH token w)
        as [tv rv] eqn:Ev.
      rewrite (proj1 (run_apply_succeeded w owner repo token _ tv rv Hc Ha Ev)).
      pose proof (verify_calls w owner repo token) as Hv.
      rewrite Ev in Hv. cbn [fst] in Hv. rewrite Hv. reflexivity.
    + intros Hs. rewrite Hs in Ha. cbn [Z.eqb Pos.eqb] in Ha.
      split; [exact Ha |].
      apply (run_apply_diagnosed w owner repo token _ Hc Ha). reflexivity.
    + intros Hs. rewrite Hs in Ha. cbn [Z.eqb Pos.eqb] in Ha.
      split; [exact Ha |].
      apply (run_apply_diagnosed w owner repo token _ Hc Ha). reflexivity.
    + intros Hs. rewrite Hs in Ha. cbn [Z.eqb Pos.eqb] in Ha.
      split; [exact Ha |].
      apply (run_apply_diagnosed w owner repo token _ Hc Ha). reflexivity.
    + intros H200 H401 H403 H404.
      apply Z.eqb_neq in H200, H401, H403, H404.
      rewrite H200, H401, H403, H404 in Ha.
      split; [exact Ha |].
      apply (run_apply_diagnosed w owner repo token _ Hc Ha). reflexivity.
  - intros msg Hput.
    pose proof (apply_unanswered w owner repo token _ Hput) as Ha.
    cbv iota in Ha.
    split; [exact Ha | split].
    + apply (run_apply_diagnosed w owner repo token _ Hc Ha). reflexivity.
    + intros w' resp Hput'.
      rewrite Ha, (apply_answered w' owner repo token resp Hput').
      cbn [fst].
      destruct (status_code resp =? 200)%Z; [cbn; congruence |].
      destruct (status_code resp =? 401)%Z; [cbn; congruence |].
      destruct (status_code resp =? 403)%Z; [cbn; congruence |].
      destruct (status_code resp =? 404)%Z; cbn; congruence.
Qed.

(** C3.  When the coordinates resolve and the access-token variable is
    unset or empty, the run issues no HTTP call, neither the PUT nor the
    GET, and ends with exit status 1. *)
Theorem missing_token_aborts (w : world) (owner repo : string) :
  resolves w owner repo ->
  env_or_empty w "GITHUB_TOKEN" = "" ->
  network_calls (fst (run repr w)) = [] /\ exit_code (snd (run repr w)) = 1%Z.
Proof.
  intros Hres Htok. rewrite run_main. exec.
  resolve Hres; rewrite Htok; cbn [String.eqb]; exec; split; reflexivity.
Qed.

(** C4.  When the run gets to the prompt and the line read there is not
    [y] or [yes] in any case of letters, the run issues no HTTP call and
    ends with exit status 0. *)
Theorem declined_prompt_exits_zero (w : world) (owner repo line : string) :
  resolves w owner repo ->
  env_or_empty w "GITHUB_TOKEN" <> "" ->
  input w prompt = Val line ->
  affirmative line = false ->
  network_calls (fst (run repr w)) = [] /\ exit_code (snd (run repr w)) = 0%Z.
Proof.
  intros Hres Htok Hin Hno. apply String.eqb_neq in Htok. unfold prompt in Hin.
  rewrite run_main. exec.
  resolve Hres; rewrite Htok; exec; rewrite Hin; exec; rewrite Hno;
    cbn [negb]; exec; split; reflexivity.
Qed.

(** C5.  After a successful apply, when the verification read fails (a
    status other than 200, a body that cannot be decoded, or a transport
    exception), [verify_protection] prints one warning and returns, and
    the run finishes with exit status 0. *)
Theorem verification_failure_not_fatal (w : world) (owner repo token : string)
    (resp : response) :
  confirmed w owner repo token ->
  requests_put w (put_request owner repo token) = Val resp ->
  status_code resp = 200%Z ->
  verification_fails (requests_get w (get_request owner repo token)) ->
  (exists notice,
     verify_protection repr (Some owner) (Some repo) BRANCH token w
     = ((verifying owner repo token
         ++ [Print stdout ("⚠️  " ++ notice)])%list, Val tt))
  /\ snd (run repr w) = Finished
  /\ exit_code (snd (run repr w)) = 0%Z.
Proof.
  intros Hc Hput Hs Hf.
  destruct (verify_failed w owner repo token Hf) as [notice Hv].
  pose proof (apply_answered w owner repo token resp Hput) as Ha.
  rewrite Hs in Ha. cbn [Z.eqb Pos.eqb] in Ha.
  destruct (run_apply_succeeded w owner repo token _ _ _ Hc Ha Hv) as [_ Hr].
  split; [exists notice; exact Hv |]. rewrite Hr. split; reflexivity.
Qed.

(** C6.  Whatever the coordinates, the branch and the token,
    [apply_branch_protection] issues one HTTP call, a PUT whose body is
    [PROTECTION_CONFIG]; the coordinates appear in its URL only.  Every
    PUT of every run of the script carries that body. *)
Theorem put_body_is_static (w : world) (owner repo : option string)
    (branch token : string) :
  network_calls (fst (apply_branch_protection owner repo branch token w))
  = [Put {| url := "https://api.github.com/repos/" ++ fstr owner ++ "/"
                   ++ fstr repo ++ "/branches/" ++ branch ++ "/protection";
            headers := api_headers token;
            json_body := Some PROTECTION_CONFIG;
            timeout := 30 |}]
  /\ Forall carries_policy (fst (run repr w)).
Proof.
  split.
  - unfold apply_branch_protection.
    cbv beta iota zeta delta
      [bind ret raise lift emit ask try_except print print_to print_info
       print_error print_success put fst snd].
    destruct (requests_put w _) as [resp | e].
    + destruct (status_code resp =? 200)%Z; [reflexivity |].
      destruct (status_code resp =? 401)%Z; [reflexivity |].
      destruct (status_code resp =? 403)%Z; [reflexivity |].
      destruct (status_code resp =? 404)%Z; reflexivity.
    + destruct e; reflexivity.
  - apply run_forall; [repeat constructor |].
    intros [] He; try exact I. destruct He as (o & p & ->). reflexivity.
Qed.

(** C7 fails on the code.  When [git] prints a URL that has [github.com]
    in it but neither [https://] nor a [:], here the path of a local
    mirror, [get_repo_info] raises [IndexError]: no pair is returned, no
    usage message is printed, and the process ends on the traceback. *)
Theorem unmatched_url_raises :
  let w := git_prints ("/srv/git/github.com/octo/demo.git" ++ nl) in
  get_repo_info w = ([Run git_argv], Exc IndexError)
  /\ run repr w
     = ((module_reads ++ banner "Branch Protection Setup" ++
         [Print stdout "ℹ️  Auto-detecting repository from git remote...";
          Run git_argv])%list,
        Traceback IndexError).
Proof. split; reflexivity. Qed.

(** The same happens for a URL with [https://] and no [github.com/]. *)
Remark bare_host_url_raises :
  snd (run repr (git_prints ("https://github.com" ++ nl))) = Traceback IndexError.
Proof. reflexivity. Qed.

(** And when [git] itself is missing, the exception is not the one the
    function catches. *)
Remark missing_git_raises (w : world) :
  env_or_empty w "GITHUB_OWNER" = "" ->
  subprocess_run w git_argv = Exc FileNotFoundError ->
  snd (run repr w) = Traceback FileNotFoundError.
Proof.
  intros He Hg. rewrite run_main. exec. rewrite He.
  cbn [truthy String.eqb negb orb]. exec.
  rewrite (get_repo_info_raises w _ Hg). reflexivity.
Qed.

(** What C7 says does hold when [git] fails with a non-zero status and
    when the URL it prints has no [github.com] in it. *)
Lemma detection_failure_aborts (w : world) :
  env_or_empty w "GITHUB_OWNER" = "" \/ env_or_empty w "GITHUB_REPO" = "" ->
  subprocess_run w git_argv = Exc CalledProcessError
  \/ (exists out, subprocess_run w git_argv = Val out
                  /\ PyStr.str_in "github.com" (PyStr.strip out) = false) ->
  get_repo_info w = ([Run git_argv], Val (None, None))
  /\ run repr w
     = ((module_reads ++ banner "Branch Protection Setup" ++
         [Print stdout "ℹ️  Auto-detecting repository from git remote...";
          Run git_argv] ++ usage)%list,
        Exited 1).
Proof.
  intros He Hg.
  assert (Hi : get_repo_info w = ([Run git_argv], Val (None, None))).
  { destruct Hg as [Hg | (out & Hg & Hn)].
    - apply (get_repo_info_raises w _ Hg).
    - rewrite (get_repo_info_run w out Hg). unfold parsed. cbv zeta.
      rewrite Hn. reflexivity. }
  split; [exact Hi |].
  rewrite run_main. exec.
  replace (negb (truthy (Some (env_or_empty w "GITHUB_OWNER")))
           || negb (truthy (Some (env_or_empty w "GITHUB_REPO")))) with true
    by (destruct He as [-> | ->]; cbn; rewrite ?orb_true_r; reflexivity).
  exec. rewrite Hi. reflexivity.
Qed.



(** C9.  When [KeyboardInterrupt] comes out of [main], the script prints
    an empty line and the notice [Cancelled by user] and exits with
    status 0; the process does not end on a traceback. *)
Theorem interrupt_exits_cleanly (w : world) (t : list event) :
  main repr (globals_of w) w = (t, Exc KeyboardInterrupt) ->
  run repr w =
  ((module_reads ++ t
    ++ [Print stdout ""; Print stdout "⚠️  Cancelled by user"])%list, Exited 0)
  /\ exit_code (snd (run repr w)) = 0%Z.
Proof. intros H. rewrite run_main, H. split; reflexivity. Qed.

(** C10.  [BRANCH] is the constant [master], and in every run, whatever
    the environment and the inputs hold, the URL of each PUT and GET
    ends with [/branches/master/protection]. *)
Theorem branch_is_master (w : world) :
  BRANCH = "master" /\ Forall targets_master (fst (run repr w)).
Proof.
  split; [reflexivity |].
  apply run_forall; [repeat constructor |].
  intros [] He; try exact I; destruct He as (o & p & ->); apply api_url_suffix.
Qed.

(** A body that decodes, but not to the dict the digest expects, is not
    among the failures of C5: the run ends on a traceback. *)
Remark misshaped_body_raises :
  snd (run repr (session (Val "y") (Val (answer 200))
                   (Val {| status_code := 200; text := "[]";
                           json := Val (VList []) |})))
  = Traceback AttributeError.
Proof. reflexivity. Qed.

End Runs.

(** * The theorems at work on sample worlds *)

Ltac confirm :=
  unfold confirmed, resolves;
  repeat first
    [ split
    | discriminate
    | reflexivity
    | left; split; reflexivity
    | eexists; split; reflexivity ].

Lemma github_remote_extracts_witness :
  (PyStr.count "/" "octo" = 0 /\ PyStr.count "/" "demo" = 0
   /\ PyStr.str_in ".git" "octo" = false /\ PyStr.str_in ".git" "demo" = false
   /\ PyStr.endswith "octo" "github.com" = false
   /\ PyStr.count ":" "octo" = 0 /\ PyStr.count ":" "demo" = 0)
  /\ get_repo_info (git_prints ("https://github.com/octo/demo.git" ++ nl))
     = ([Run git_argv], Val (Some "octo", Some "demo"))
  /\ get_repo_info (git_prints ("git@github.com:octo/demo" ++ nl))
     = ([Run git_argv], Val (Some "octo", Some "demo")).
Proof.
  split; [repeat split |]. split.
  - exact (github_remote_extracts Https "octo" "demo" true
             eq_refl eq_refl eq_refl eq_refl eq_refl
             (git_prints ("https://github.com/octo/demo.git" ++ nl))
             ("https://github.com/octo/demo.git" ++ nl) eq_refl eq_refl).
  - exact (github_remote_extracts Ssh "octo" "demo" false
             eq_refl eq_refl eq_refl eq_refl (conj eq_refl eq_refl)
             (git_prints ("git@github.com:octo/demo" ++ nl))
             ("git@github.com:octo/demo" ++ nl) eq_refl eq_refl).
Defined.

Lemma apply_status_outcomes_witness :
  let go := fun put_answer =>
    session (Val "y") put_answer (Val (answer 200)) in
  let calls := fun w => network_calls (fst (run sample_repr w)) in
  let code := fun w => exit_code (snd (run sample_repr w)) in
  let put := Put (put_request "octo" "demo" "secret") in
  confirmed (go (Val (answer 200))) "octo" "demo" "secret"
  /\ calls (go (Val (answer 200)))
     = [put; Get (get_request "octo" "demo" "secret")]
  /\ (calls (go (Val (answer 401))) = [put] /\ code (go (Val (answer 401))) = 1%Z)
  /\ (calls (go (Val (answer 403))) = [put] /\ code (go (Val (answer 403))) = 1%Z)
  /\ (calls (go (Val (answer 404))) = [put] /\ code (go (Val (answer 404))) = 1%Z)
  /\ (calls (go (Val (answer 500))) = [put] /\ code (go (Val (answer 500))) = 1%Z)
  /\ (calls (go (Exc (RequestException "timed out"))) = [put]
      /\ code (go (Exc (RequestException "timed out"))) = 1%Z).
Proof.
  cbv zeta. split; [confirm |].
  split; [| split; [| split; [| split; [| split]]]].
  - assert (Hc : confirmed (session (Val "y") (Val (answer 200)) (Val (answer 200)))
                   "octo" "demo" "secret") by confirm.
    exact (proj2 (proj1 (proj1 (apply_status_outcomes sample_repr _ _ _ _ Hc)
                           (answer 200) eq_refl) eq_refl)).
  - assert (Hc : confirmed (session (Val "y") (Val (answer 401)) (Val (answer 200)))
                   "octo" "demo" "secret") by confirm.
    exact (proj2 (proj1 (proj2 (proj1 (apply_status_outcomes sample_repr _ _ _ _ Hc)
                                  (answer 401) eq_refl)) eq_refl)).
  - assert (Hc : confirmed (session (Val "y") (Val (answer 403)) (Val (answer 200)))
                   "octo" "demo" "secret") by confirm.
    exact (proj2 (proj1 (proj2 (proj2 (proj1 (apply_status_outcomes sample_repr _ _ _ _ Hc)
                                         (answer 403) eq_refl))) eq_refl)).
  - assert (Hc : confirmed (session (Val "y") (Val (answer 404)) (Val (answer 200)))
                   "octo" "demo" "secret") by confirm.
    exact (proj2 (proj1 (proj2 (proj2 (proj2 (proj1
             (apply_status_outcomes sample_repr _ _ _ _ Hc)
             (answer 404) eq_refl)))) eq_refl)).
  - assert (Hc : confirmed (session (Val "y") (Val (answer 500)) (Val (answer 200)))
                   "octo" "demo" "secret") by confirm.
    refine (proj2 (proj2 (proj2 (proj2 (proj2 (proj1
             (apply_status_outcomes sample_repr _ _ _ _ Hc)
             (answer 500) eq_refl)))) _ _ _ _)); discriminate.
  - assert (Hc : confirmed (session (Val "y") (Exc (RequestException "timed out"))
                              (Val (answer 200)))
                   "octo" "demo" "secret") by confirm.
    exact (proj1 (proj2 (proj2 (apply_status_outcomes sample_repr _ _ _ _ Hc)
                           "timed out" eq_refl))).
Defined.

Lemma missing_token_aborts_witness :
  let w := git_prints ("git@github.com:octo/demo.git" ++ nl) in
  resolves w "octo" "demo"
  /\ env_or_empty w "GITHUB_TOKEN" = ""
  /\ network_calls (fst (run sample_repr w)) = []
  /\ exit_code (snd (run sample_repr w)) = 1%Z.
Proof.
  cbv zeta.
  assert (Hr : resolves (git_prints ("git@github.com:octo/demo.git" ++ nl))
                 "octo" "demo").
  { unfold resolves. split; [discriminate |]. split; [discriminate |].
    right. split; [left |]; reflexivity. }
  split; [exact Hr |]. split; [reflexivity |].
  exact (missing_token_aborts sample_repr _ "octo" "demo" Hr eq_refl).
Defined.

Lemma declined_prompt_exits_zero_witness :
  let w := session (Val "no") (Val (answer 200)) (Val (answer 200)) in
  resolves w "octo" "demo"
  /\ env_or_empty w "GITHUB_TOKEN" <> ""
  /\ input w prompt = Val "no"
  /\ affirmative "no" = false
  /\ network_calls (fst (run sample_repr w)) = []
  /\ exit_code (snd (run sample_repr w)) = 0%Z.
Proof.
  cbv zeta.
  assert (Hr : resolves (session (Val "no") (Val (answer 200)) (Val (answer 200)))
                 "octo" "demo").
  { unfold resolves. split; [discriminate |]. split; [discriminate |].
    left. split; reflexivity. }
  assert (Ht : env_or_empty (session (Val "no") (Val (answer 200)) (Val (answer 200)))
                 "GITHUB_TOKEN" <> "") by discriminate.
  split; [exact Hr |]. split; [exact Ht |].
  split; [reflexivity |]. split; [reflexivity |].
  exact (declined_prompt_exits_zero sample_repr _ "octo" "demo" "no"
           Hr Ht eq_refl eq_refl).
Defined.

Lemma verification_failure_not_fatal_witness :
  let w := session (Val "YES") (Val (answer 200)) (Val (answer 500)) in
  confirmed w "octo" "demo" "secret"
  /\ verification_fails (requests_get w (get_request "octo" "demo" "secret"))
  /\ snd (run sample_repr w) = Finished
  /\ exit_code (snd (run sample_repr w)) = 0%Z.
Proof.
  cbv zeta.
  assert (Hc : confirmed (session (Val "YES") (Val (answer 200)) (Val (answer 500)))
                 "octo" "demo" "secret") by confirm.
  assert (Hf : verification_fails
                 (requests_get (session (Val "YES") (Val (answer 200))
                                  (Val (answer 500)))
                    (get_request "octo" "demo" "secret")))
    by (apply fails_status; discriminate).
  split; [exact Hc |]. split; [exact Hf |].
  exact (proj2 (verification_failure_not_fatal sample_repr _ "octo" "demo" "secret"
                  (answer 200) Hc eq_refl eq_refl Hf)).
Defined.


Lemma interrupt_exits_cleanly_witness :
  let w := session (Exc KeyboardInterrupt) (Val (answer 200)) (Val (answer 200)) in
  snd (main sample_repr (globals_of w) w) = Exc KeyboardInterrupt
  /\ snd (run sample_repr w) = Exited 0
  /\ exit_code (snd (run sample_repr w)) = 0%Z.
Proof.
  cbv zeta. split; [reflexivity |].
  destruct (interrupt_exits_cleanly sample_repr
              (session (Exc KeyboardInterrupt) (Val (answer 200)) (Val (answer 200)))
              (fst (main sample_repr
                      (globals_of (session (Exc KeyboardInterrupt)
                                     (Val (answer 200)) (Val (answer 200))))
                      (session (Exc KeyboardInterrupt)
                         (Val (answer 200)) (Val (answer 200)))))
              eq_refl) as [Hrun Hcode].
  split; [rewrite Hrun; reflexivity | exact Hcode].
Defined.

(** * Further properties of coordinate resolution *)

Module UrlFacts.
Import PyStr PyStrFacts PathFacts.

(** An occurrence of [.git] inside goes as the suffix does. *)
Lemma replace_inner (s rest : string) :
  str_in ".git" s = false ->
  replace_from 0 (s ++ ".git" ++ rest) ".git" ""
  = s ++ replace_from 0 rest ".git" "".
Proof.
  induction s as [|x s IH]; intros H; [reflexivity |].
  apply str_in_cons in H as [H1 H2].
  change (String x s ++ ".git" ++ rest) with (String x (s ++ ".git" ++ rest)).
  cbn [replace_from].
  destruct (startswith (String x (s ++ ".git" ++ rest)) ".git") eqn:E.
  - exfalso. apply startswith_inv in E as [t E].
    destruct s as [|a [|b [|c s]]]; simpl in E; try discriminate.
    injection E as -> -> -> -> _.
    simpl in H1. discriminate.
  - rewrite (IH H2). reflexivity.
Qed.

Lemma replace_github (style : url_style) (path : string) (dot_git : bool) :
  str_in ".git" path = false ->
  replace (github style path dot_git) ".git" "" = github style path false.
Proof.
  intros H. unfold replace, github. rewrite app_nil_r.
  destruct style; simpl; repeat f_equal; apply replace_path, H.
Qed.

Lemma github_in (style : url_style) (path : string) (dot_git : bool) :
  str_in "github.com" (github style path dot_git) = true.
Proof. destruct style; reflexivity. Qed.

Lemma scheme_free (path : string) :
  count ":" path = 0 -> str_in "https://" ("git@github.com:" ++ path) = false.
Proof.
  intros H. simpl.
  destruct (str_in "https://" path) eqn:E; [| reflexivity].
  apply (str_in_count ":") in E. simpl in E. lia.
Qed.

(** Once [.git] is gone, the pair is read off the path. *)
Lemma parsed_replaced (style : url_style) (path out : string) :
  str_in "github.com" (strip out) = true ->
  replace (strip out) ".git" "" = github style path false ->
  path_ok style path ->
  parsed out =
  match split path "/" with
  | p0 :: p1 :: _ => Val (Some p0, Some p1)
  | _ => Val (None, None)
  end.
Proof.
  intros Hin Hr Hp. unfold parsed. cbv zeta. rewrite Hin, Hr.
  unfold github. rewrite app_nil_r. destruct style; cbn [path_ok] in Hp.
  - assert (Hs' : str_in "https://" ("https://github.com/" ++ path) = true)
      by reflexivity.
    rewrite Hs', (split_https path Hp). reflexivity.
  - rewrite (scheme_free path Hp), (split_ssh path Hp). reflexivity.
Qed.

Lemma yields_split (style : url_style) (path path' : string) (dot_git : bool) :
  replace (github style path dot_git) ".git" "" = github style path' false ->
  path_ok style path' ->
  yields (github style path dot_git)
    match split path' "/" with
    | p0 :: p1 :: _ => Val (Some p0, Some p1)
    | _ => Val (None, None)
    end.
Proof.
  intros Hr Hp w out Hrun Hs.
  rewrite (get_repo_info_run w out Hrun). f_equal.
  apply (parsed_replaced style path' out); [| | exact Hp].
  - rewrite Hs. apply github_in.
  - rewrite Hs. exact Hr.
Qed.

Lemma replace_inner_github (style : url_style) (p a b : string) (dot_git : bool) :
  str_in ".git" (p ++ a) = false -> str_in ".git" b = false ->
  replace (github style (p ++ a ++ ".git" ++ b) dot_git) ".git" ""
  = github style (p ++ a ++ b) false.
Proof.
  intros Hpa Hb. unfold replace, github. rewrite app_nil_r.
  set (sfx := if dot_git then ".git" else "").
  assert (E : replace_from 0 ((p ++ a ++ ".git" ++ b) ++ sfx) ".git" ""
              = p ++ a ++ b).
  { rewrite <- (app_assoc p a), <- (app_assoc p a b).
    rewrite (app_assoc (p ++ a) (".git" ++ b) sfx).
    change ((".git" ++ b) ++ sfx) with (".git" ++ b ++ sfx).
    rewrite (replace_inner (p ++ a) (b ++ sfx) Hpa).
    unfold sfx. rewrite (replace_path b dot_git Hb). reflexivity. }
  destruct style; simpl; repeat f_equal; exact E.
Qed.

(** A text without [c] that is neither in [a] nor in [b] is not in
    [a], [c], [b] put together. *)
Lemma str_in_across (c : ascii) (sub a b : string) :
  count c sub = 0 -> sub <> "" ->
  str_in sub a = false -> str_in sub b = false ->
  str_in sub (a ++ String c b) = false.
Proof.
  intros Hc Hne Ha Hb. induction a as [|x a IH].
  - cbn [append str_in]. rewrite Hb, orb_false_r.
    destruct sub as [|y sub]; [contradiction |].
    cbn [startswith]. simpl in Hc.
    destruct (Ascii.eqb y c); [discriminate | reflexivity].
  - apply str_in_cons in Ha as [H1 H2].
    change (String x a ++ String c b) with (String x (a ++ String c b)).
    cbn [str_in]. rewrite (IH H2), orb_false_r.
    destruct (startswith (String x (a ++ String c b)) sub) eqn:E; [| reflexivity].
    apply (startswith_across c sub (String x a) b Hc) in E. congruence.
Qed.

Lemma str_in_wider (sub pre s post : string) :
  str_in sub s = true -> str_in sub (pre ++ s ++ post) = true.
Proof.
  intros H. apply str_in_inv in H as (a & b & ->).
  rewrite <- (app_assoc pre), !app_assoc. rewrite <- (app_assoc pre a).
  apply str_in_app.
Qed.

End UrlFacts.

Section Coordinates.
Import PyStr PyStrFacts PathFacts UrlFacts.

(** X1.  Of a path with more than two components behind the host,
    [get_repo_info] keeps the first two: what follows the second [/] is
    dropped without notice. *)
Theorem extra_components_ignored (style : url_style) (owner repo rest : string)
    (dot_git : bool) :
  let path := owner ++ "/" ++ repo ++ "/" ++ rest in
  count "/" owner = 0 -> count "/" repo = 0 ->
  str_in ".git" path = false ->
  path_ok style path ->
  yields (github style path dot_git) (Val (Some owner, Some repo)).
Proof.
  cbv zeta. intros Ho Hr Hg Hp.
  pose proof (yields_split style _ _ dot_git
                (replace_github style _ dot_git Hg) Hp) as H.
  change (owner ++ "/" ++ repo ++ "/" ++ rest)
    with (owner ++ String "/" (repo ++ String "/" rest)) in H.
  unfold split in H.
  rewrite (split_char "/" owner _ Ho), (split_char "/" repo _ Hr) in H.
  exact H.
Qed.

(** X2.  For a GitHub URL with one component only behind the host,
    [get_repo_info] returns [(None, None)]. *)
Theorem single_component_is_no_pair (style : url_style) (name : string)
    (dot_git : bool) :
  count "/" name = 0 ->
  str_in ".git" name = false ->
  path_ok style name ->
  yields (github style name dot_git) (Val (None, None)).
Proof.
  intros Hn Hg Hp.
  pose proof (yields_split style _ _ dot_git
                (replace_github style _ dot_git Hg) Hp) as H.
  unfold split in H. rewrite (split_none "/" name (count_single "/" name Hn)) in H.
  exact H.
Qed.

(** X3.  [replace(".git", "")] removes the first [.git] inside a
    repository name as well as the suffix: for the name [a ++ ".git" ++ b]
    the function returns [a ++ b]. *)
Theorem inner_dot_git_removed (style : url_style) (owner a b : string)
    (dot_git : bool) :
  count "/" owner = 0 -> count "/" a = 0 -> count "/" b = 0 ->
  str_in ".git" owner = false -> str_in ".git" a = false ->
  str_in ".git" b = false ->
  path_ok style (owner ++ "/" ++ a ++ b) ->
  yields (github style (owner ++ "/" ++ a ++ ".git" ++ b) dot_git)
    (Val (Some owner, Some (a ++ b))).
Proof.
  intros Ho Ha Hb Go Ga Gb Hp.
  assert (Hr : replace (github style (owner ++ "/" ++ a ++ ".git" ++ b) dot_git)
                 ".git" ""
               = github style (owner ++ "/" ++ a ++ b) false).
  { pose proof (replace_inner_github style (owner ++ "/") a b dot_git) as E.
    rewrite !(app_assoc owner "/") in E. apply E; [| exact Gb].
    apply path_git_free; assumption. }
  pose proof (yields_split style _ _ dot_git Hr Hp) as H.
  change (owner ++ "/" ++ a ++ b) with (owner ++ String "/" (a ++ b)) in H.
  rewrite (split_pair "/" owner (a ++ b) Ho) in H; [exact H |].
  rewrite count_app, Ha, Hb. reflexivity.
Qed.

(** X4.  The host is looked for as a substring only: a remote
    [git@<host>:<owner>/<repo>] on any host whose name contains
    [github.com] gives the pair [(owner, repo)]. *)
Theorem substring_host_accepted (host owner repo : string) :
  str_in "github.com" host = true ->
  str_in ".git" host = false ->
  count ":" host = 0 -> count "/" host = 0 ->
  count "/" owner = 0 -> count "/" repo = 0 ->
  count ":" owner = 0 -> count ":" repo = 0 ->
  str_in ".git" owner = false -> str_in ".git" repo = false ->
  yields (remote_url Ssh host owner repo false) (Val (Some owner, Some repo)).
Proof.
  intros Hh Gh Ch Sh So Sr Co Cr Go Gr w out Hrun Hs.
  rewrite (get_repo_info_run w out Hrun). f_equal.
  unfold parsed. rewrite Hs. cbv zeta.
  unfold remote_url. rewrite app_nil_r.
  set (path := owner ++ "/" ++ repo).
  assert (E : ("git@" ++ host ++ ":") ++ path = ("git@" ++ host) ++ String ":" path).
  { rewrite !app_assoc. reflexivity. }
  rewrite E.
  assert (Hin : str_in "github.com" (("git@" ++ host) ++ String ":" path) = true).
  { rewrite app_assoc. apply (str_in_wider "github.com" "git@" host), Hh. }
  rewrite Hin.
  assert (Gp : str_in ".git" path = false) by (apply path_git_free; assumption).
  assert (Gu : str_in ".git" ("git@" ++ host) = false) by (simpl; exact Gh).
  assert (Hrep : replace (("git@" ++ host) ++ String ":" path) ".git" ""
                 = ("git@" ++ host) ++ String ":" path).
  { apply replace_none, str_in_across;
      [reflexivity | discriminate | exact Gu | exact Gp]. }
  rewrite Hrep.
  assert (Hsch : str_in "https://" (("git@" ++ host) ++ String ":" path) = false).
  { destruct (str_in "https://" _) eqn:F; [exfalso | reflexivity].
    apply (str_in_count "/") in F. unfold path in F.
    rewrite !count_app in F. simpl in F. rewrite ?count_app in F. simpl in F. lia. }
  rewrite Hsch.
  assert (Cu : count ":" ("git@" ++ host) = 0) by (simpl; exact Ch).
  assert (Cp : count ":" path = 0).
  { unfold path. rewrite !count_app. simpl. lia. }
  rewrite (split_pair ":" ("git@" ++ host) path Cu Cp). cbn [nth_error].
  unfold path. change (owner ++ "/" ++ repo) with (owner ++ String "/" repo).
  rewrite (split_pair "/" owner repo So Sr). reflexivity.
Qed.

(** X5.  [get_repo_info] starts [git] once and does nothing else to the
    outside; it returns a full pair or [(None, None)], never half a
    pair; [CalledProcessError] never comes out of it, and an exception
    that does is [IndexError] or what [subprocess.run] raised. *)
Theorem get_repo_info_shape (w : world) :
  fst (get_repo_info w) = [Run git_argv]
  /\ match snd (get_repo_info w) with
     | Val (Some _, Some _) | Val (None, None) => True
     | Val _ => False
     | Exc e =>
         e <> CalledProcessError
         /\ (e = IndexError \/ subprocess_run w git_argv = Exc e)
     end.
Proof.
  split; [apply get_repo_info_trace |].
  destruct (subprocess_run w git_argv) as [out | e] eqn:E.
  - rewrite (get_repo_info_run w out E). cbn [snd]. unfold parsed. cbv zeta.
    destruct (str_in "github.com" (strip out)); [| exact I].
    destruct (nth_error _ 1) as [p |].
    + destruct (split p "/") as [| p0 [| p1 rest]]; exact I.
    + split; [discriminate | left; reflexivity].
  - rewrite (get_repo_info_raises w e E). cbn [snd].
    destruct e; try (split; [discriminate | right; reflexivity]). exact I.
Qed.

End Coordinates.

(** * Further properties of the apply and the verification step *)

(** The apply step, whatever its arguments: what it sends, what it
    prints for each answer, what it returns. *)
Lemma apply_run (w : world) (owner repo : option string) (branch token : string) :
  apply_branch_protection owner repo branch token w =
  let sent := [Print stdout "Applying branch protection..."; Print stdout "";
               Put (put_of owner repo branch token)] in
  match requests_put w (put_of owner repo branch token) with
  | Val resp =>
      ((sent ++
        if (status_code resp =? 200)%Z then
          [Print stdout "✅ Branch protection applied successfully!"]
        else if (status_code resp =? 401)%Z then
          [Print stderr "❌ Authentication failed. Check your GITHUB_TOKEN.";
           Print stdout "ℹ️  Generate a token at: https://github.com/settings/tokens";
           Print stdout "ℹ️  Required scopes: repo (full control)"]
        else if (status_code resp =? 403)%Z then
          [Print stderr "❌ Permission denied. You need admin access to this repository."]
        else if (status_code resp =? 404)%Z then
          [Print stderr ("❌ Repository or branch not found: "
                         ++ fstr owner ++ "/" ++ fstr repo ++ "/" ++ branch);
           Print stdout "ℹ️  Make sure the branch exists and you have access."]
        else
          [Print stderr ("❌ Failed with status code: "
                         ++ PyStr.of_int (status_code resp));
           Print stderr ("❌ Response: " ++ text resp)])%list,
       Val (status_code resp =? 200)%Z)
  | Exc (RequestException msg) =>
      ((sent ++ [Print stderr ("❌ Request failed: " ++ msg)])%list, Val false)
  | Exc e => (sent, Exc e)
  end.
Proof.
  unfold apply_branch_protection.
  cbv beta iota zeta delta
    [bind ret raise lift emit ask try_except print print_to print_info
     print_error print_success put fst snd].
  change {| url := _; headers := _; json_body := _; timeout := _ |}
    with (put_of owner repo branch token).
  destruct (requests_put w (put_of owner repo branch token)) as [resp | e].
  - destruct (status_code resp =? 200)%Z; [reflexivity |].
    destruct (status_code resp =? 401)%Z; [reflexivity |].
    destruct (status_code resp =? 403)%Z; [reflexivity |].
    destruct (status_code resp =? 404)%Z; reflexivity.
  - destruct e; reflexivity.
Qed.

(** X6.  [apply_branch_protection] returns [True] exactly when the PUT
    is answered with status 200, and [False] exactly when it is answered
    with another status or [requests] raises a [RequestException]; the
    exceptions that come out of it are those the PUT raised that are no
    [RequestException]. *)
Theorem apply_result (w : world) (owner repo : option string)
    (branch token : string) :
  let result := snd (apply_branch_protection owner repo branch token w) in
  let answer := requests_put w (put_of owner repo branch token) in
  (result = Val true <->
     exists resp, answer = Val resp /\ status_code resp = 200%Z)
  /\ (result = Val false <->
        (exists resp, answer = Val resp /\ status_code resp <> 200%Z)
        \/ exists msg, answer = Exc (RequestException msg))
  /\ (forall e, result = Exc e <->
        answer = Exc e /\ is_request_exception e = false).
Proof.
  cbv zeta. rewrite apply_run. cbv zeta.
  destruct (requests_put w (put_of owner repo branch token)) as [resp | e].
  - cbn [snd]. destruct (Z.eqb_spec (status_code resp) 200) as [E | E].
    + split; [| split].
      * split; [exists resp; split; [reflexivity | exact E] | reflexivity].
      * split; [discriminate |].
        intros [(r & [= <-] & Hr) | (msg & Hm)]; [contradiction | discriminate].
      * intros e. split; [discriminate | intros [H _]; discriminate].
    + split; [| split].
      * split; [discriminate |]. intros (r & [= <-] & Hr). contradiction.
      * split; [| reflexivity]. intros _. left. exists resp.
        split; [reflexivity | exact E].
      * intros e. split; [discriminate | intros [H _]; discriminate].
  - split; [| split].
    + split; [destruct e; discriminate | intros (r & H & _); discriminate].
    + split.
      * destruct e; try discriminate. intros _. right. exists msg. reflexivity.
      * intros [(r & H & _) | (msg & [= ->])]; [discriminate | reflexivity].
    + intros e'. split.
      * destruct e; intros [= <-]; split; reflexivity.
      * intros [[= ->] H]. destruct e'; try reflexivity. discriminate.
Qed.

(** X7.  [apply_branch_protection] writes to the standard error stream
    exactly when it returns [False]: a success, and an exception that
    passes through, leave that stream empty, and every failure it
    reports puts at least one line there. *)
Theorem apply_reports_on_stderr (w : world) (owner repo : option string)
    (branch token : string) :
  snd (apply_branch_protection owner repo branch token w) = Val false
  <-> stderr_lines (fst (apply_branch_protection owner repo branch token w)) <> [].
Proof.
  rewrite apply_run. cbv zeta.
  destruct (requests_put w (put_of owner repo branch token)) as [resp | e].
  - cbn [fst snd app stderr_lines].
    destruct (status_code resp =? 200)%Z;
      [split; [discriminate | intros H; now contradiction H] |].
    destruct (status_code resp =? 401)%Z; [split; [discriminate | reflexivity] |].
    destruct (status_code resp =? 403)%Z; [split; [discriminate | reflexivity] |].
    destruct (status_code resp =? 404)%Z; split; (discriminate || reflexivity).
  - destruct e; cbn [fst snd app stderr_lines];
      split; (discriminate || reflexivity || (intros H; now contradiction H)).
Qed.

Lemma field_get (data : value) (key sub : string) (default : value) :
  res_bind (dict_get data key (VDict [])) (fun d => dict_get d sub default)
  = match field data key sub default with
    | Some v => Val v
    | None => Exc AttributeError
    end.
Proof.
  unfold field, dict_get, res_bind.
  destruct data; try reflexivity.
  destruct (assoc items key) as [[] |]; try reflexivity.
  destruct (assoc items0 sub); reflexivity.
Qed.

Section Verify.
Variable repr : value -> string.

Ltac run_verify owner repo token :=
  unfold verify_protection;
  cbv beta iota zeta delta
    [bind ret raise lift emit ask try_except print print_to print_warning
     print_success get fst snd fstr verifying];
  change {| url := _; headers := _; json_body := None; timeout := 30 |}
    with (get_request owner repo token).

(** X8.  On a 200 answer whose body is a JSON object with an object,
    or nothing, under each of the four keys, [verify_protection] prints
    the success line and the digest of four settings, each read with
    [get] and its default, and returns. *)
Theorem verify_prints_digest (w : world) (owner repo token : string)
    (g : response) (data checks approvals admins linear : value) :
  requests_get w (get_request owner repo token) = Val g ->
  status_code g = 200%Z ->
  json g = Val data ->
  field data "required_status_checks" "contexts" (VList []) = Some checks ->
  field data "required_pull_request_reviews" "required_approving_review_count"
    (VInt 0) = Some approvals ->
  field data "enforce_admins" "enabled" (VBool false) = Some admins ->
  field data "required_linear_history" "enabled" (VBool false) = Some linear ->
  verify_protection repr (Some owner) (Some repo) BRANCH token w
  = ((verifying owner repo token ++
      [Print stdout "✅ Verification successful";
       Print stdout "";
       Print stdout "Current settings:";
       Print stdout ("  • Required status checks: " ++ py_str repr checks);
       Print stdout ("  • Required approvals: " ++ py_str repr approvals);
       Print stdout ("  • Enforce for admins: " ++ py_str repr admins);
       Print stdout ("  • Linear history: " ++ py_str repr linear)])%list,
     Val tt).
Proof.
  intros Hg Hs Hj H1 H2 H3 H4. run_verify owner repo token.
  rewrite Hg, Hs, Hj. cbn [Z.eqb Pos.eqb]. rewrite !field_get.
  rewrite H1, H2, H3, H4. reflexivity.
Qed.

(** X9.  When the body is a JSON object that has none of the four
    keys, the digest shows the defaults: an empty list, [0], [False] and
    [False]. *)
Theorem verify_defaults (w : world) (owner repo token : string)
    (g : response) (items : list (string * value)) :
  requests_get w (get_request owner repo token) = Val g ->
  status_code g = 200%Z ->
  json g = Val (VDict items) ->
  assoc items "required_status_checks" = None ->
  assoc items "required_pull_request_reviews" = None ->
  assoc items "enforce_admins" = None ->
  assoc items "required_linear_history" = None ->
  printed (fst (verify_protection repr (Some owner) (Some repo) BRANCH token w))
  = [(stdout, ""); (stdout, "Verifying configuration..."); (stdout, "");
     (stdout, "✅ Verification successful");
     (stdout, "");
     (stdout, "Current settings:");
     (stdout, "  • Required status checks: " ++ repr (VList []));
     (stdout, "  • Required approvals: 0");
     (stdout, "  • Enforce for admins: False");
     (stdout, "  • Linear history: False")]
  /\ snd (verify_protection repr (Some owner) (Some repo) BRANCH token w) = Val tt.
Proof.
  intros Hg Hs Hj H1 H2 H3 H4. run_verify owner repo token.
  rewrite Hg, Hs, Hj. cbn [Z.eqb Pos.eqb]. rewrite !field_get. unfold field.
  rewrite H1, H2, H3, H4. split; reflexivity.
Qed.

(** The digest stops with [AttributeError] at the first setting that
    cannot be read. *)
Lemma verify_misshaped (w : world) (owner repo token : string)
    (g : response) (data : value) :
  requests_get w (get_request owner repo token) = Val g ->
  status_code g = 200%Z ->
  json g = Val data ->
  field data "required_status_checks" "contexts" (VList []) = None
  \/ field data "required_pull_request_reviews" "required_approving_review_count"
       (VInt 0) = None
  \/ field data "enforce_admins" "enabled" (VBool false) = None
  \/ field data "required_linear_history" "enabled" (VBool false) = None ->
  snd (verify_protection repr (Some owner) (Some repo) BRANCH token w)
  = Exc AttributeError.
Proof.
  intros Hg Hs Hj H. run_verify owner repo token.
  rewrite Hg, Hs, Hj. cbn [Z.eqb Pos.eqb]. rewrite !field_get.
  destruct (field data "required_status_checks" "contexts" (VList []));
    [| reflexivity].
  destruct (field data "required_pull_request_reviews"
              "required_approving_review_count" (VInt 0)); [| reflexivity].
  destruct (field data "enforce_admins" "enabled" (VBool false));
    [| reflexivity].
  destruct (field data "required_linear_history" "enabled" (VBool false));
    [| reflexivity].
  destruct H as [H | [H | [H | H]]]; discriminate H.
Qed.

(** X10.  After a successful apply, a 200 answer to the verification
    read whose body decodes, but not to an object with an object under
    each key it has of the four, ends the run on a traceback of
    [AttributeError], with exit status 1, although the policy is
    applied: the handler of [verify_protection] catches
    [RequestException] only. *)
Theorem misshaped_body_ends_run (w : world) (owner repo token : string)
    (resp g : response) (data : value) :
  confirmed w owner repo token ->
  requests_put w (put_request owner repo token) = Val resp ->
  status_code resp = 200%Z ->
  requests_get w (get_request owner repo token) = Val g ->
  status_code g = 200%Z ->
  json g = Val data ->
  field data "required_status_checks" "contexts" (VList []) = None
  \/ field data "required_pull_request_reviews" "required_approving_review_count"
       (VInt 0) = None
  \/ field data "enforce_admins" "enabled" (VBool false) = None
  \/ field data "required_linear_history" "enabled" (VBool false) = None ->
  network_calls (fst (run repr w))
  = [Put (put_request owner repo token); Get (get_request owner repo token)]
  /\ snd (run repr w) = Traceback AttributeError
  /\ exit_code (snd (run repr w)) = 1%Z.
Proof.
  intros Hc Hput Hs Hg Hgs Hj Hf.
  pose proof (verify_misshaped w owner repo token g data Hg Hgs Hj Hf) as Hv.
  pose proof (verify_calls repr w owner repo token) as Hvc.
  pose proof (apply_answered w owner repo token resp Hput) as Ha.
  rewrite Hs in Ha. cbn [Z.eqb Pos.eqb] in Ha.
  destruct (verify_protection repr (Some owner) (Some repo) BRANCH token w)
    as [tv rv] eqn:Ev.
  cbn [fst snd] in Hv, Hvc. subst rv.
  destruct (run_apply_succeeded repr w owner repo token _ tv _ Hc Ha Ev)
    as [Hcalls Hr].
  rewrite Hcalls, Hr, network_calls_app, Hvc. repeat split.
Qed.

(** X11.  No [RequestException] comes out of [verify_protection],
    whatever its arguments and whatever the service does: a transport
    failure, and a body that cannot be decoded, end in a warning. *)
Theorem verify_contains_transport_errors (w : world) (owner repo : option string)
    (branch token : string) :
  match snd (verify_protection repr owner repo branch token w) with
  | Val _ => True
  | Exc e => is_request_exception e = false
  end.
Proof.
  unfold verify_protection.
  cbv beta iota zeta delta
    [bind ret raise lift emit ask try_except print print_to print_warning
     print_success get fst snd].
  destruct (requests_get w _) as [g | e]; [| destruct e; exact I || reflexivity].
  destruct (status_code g =? 200)%Z; [| exact I].
  destruct (json g) as [data | e]; [| destruct e; exact I || reflexivity].
  rewrite !field_get.
  destruct (field data "required_status_checks" "contexts" (VList []));
    [| reflexivity].
  destruct (field data "required_pull_request_reviews"
              "required_approving_review_count" (VInt 0)); [| reflexivity].
  destruct (field data "enforce_admins" "enabled" (VBool false));
    [| reflexivity].
  destruct (field data "required_linear_history" "enabled" (VBool false));
    [exact I | reflexivity].
Qed.

End Verify.

(** * The ways through [main] *)

Lemma truthy_inv (o : option string) :
  truthy o = true -> exists s, o = Some s /\ s <> "".
Proof.
  destruct o as [s |]; [| discriminate]. intros H. exists s. split; [reflexivity |].
  unfold truthy in H. apply negb_true_iff, String.eqb_neq in H. exact H.
Qed.

Lemma both_set_false (w : world) :
  both_set w = false ->
  env_or_empty w "GITHUB_OWNER" = "" \/ env_or_empty w "GITHUB_REPO" = "".
Proof.
  unfold both_set, truthy. intros H.
  apply andb_false_iff in H as [E | E];
    apply negb_false_iff, String.eqb_eq in E; auto.
Qed.

Lemma bind_header {A : Type} (text : string) (k : M A) (w : world) :
  (print_header text;; k) w = let (t, r) := k w in ((banner text ++ t)%list, r).
Proof.
  unfold print_header, print, print_to, bind, emit, banner.
  destruct (k w) as [t r]. reflexivity.
Qed.

Lemma put_of_master (owner repo token : string) :
  put_of (Some owner) (Some repo) BRANCH token = put_request owner repo token.
Proof. reflexivity. Qed.


Lemma subprocesses_app (t t' : list event) :
  subprocesses (t ++ t')%list = (subprocesses t ++ subprocesses t')%list.
Proof.
  induction t as [| e t IH]; [reflexivity |].
  destruct e; cbn [subprocesses app]; rewrite ?IH; reflexivity.
Qed.

Lemma subprocesses_none (t : list event) :
  Forall no_subprocess t -> subprocesses t = [].
Proof.
  induction 1 as [| e t He _ IH]; [reflexivity |].
  destruct e; cbn [subprocesses]; try exact IH. destruct He.
Qed.


Section MainPaths.
Variable repr : value -> string.

(** [main] once the coordinates are known. *)
Lemma main_resolved (w : world) (owner repo : string) :
  resolves w owner repo ->
  exists t r,
    main repr (globals_of w) w = ((start w ++ t)%list, r)
    /\ proceeds repr w owner repo t r.
Proof.
  intros Hres.
  assert (Hstart : exists pre,
            start w = (banner "Branch Protection Setup" ++ pre)%list
            /\ forall k : option string * option string -> M unit,
                 (coordinates <-
                    (if negb (truthy (Some (env_or_empty w "GITHUB_OWNER")))
                        || negb (truthy (Some (env_or_empty w "GITHUB_REPO")))
                     then
                       print_info "Auto-detecting repository from git remote...";;
                       detected <- get_repo_info;;
                       let (owner, repo) := detected in
                       (if negb (truthy owner) || negb (truthy repo) then
                          print_error "Unable to detect repository. Please set GITHUB_OWNER and GITHUB_REPO";;
                          print "";;
                          print "Usage:";;
                          print "  export GITHUB_OWNER=your-username";;
                          print "  export GITHUB_REPO=your-repo";;
                          print "  python setup-branch-protection.py";;
                          sys_exit 1
                        else ret tt);;
                       ret (owner, repo)
                     else ret (Some (env_or_empty w "GITHUB_OWNER"),
                               Some (env_or_empty w "GITHUB_REPO")));;
                  k coordinates) w
                 = let (t, r) := k (Some owner, Some repo) w in ((pre ++ t)%list, r)).
  { unfold start, both_set.
    destruct Hres as (Ho & Hr & [[Eo Er] | [He Hg]]).
    - exists []. rewrite Eo, Er, (truthy_some _ Ho), (truthy_some _ Hr).
      split; [reflexivity |]. intros k. cbn [negb orb]. exec.
      destruct (k (Some owner, Some repo) w) as [t r]. reflexivity.
    - exists detecting. apply get_repo_info_value in Hg.
      assert (Hb : truthy (Some (env_or_empty w "GITHUB_OWNER"))
                   && truthy (Some (env_or_empty w "GITHUB_REPO")) = false)
        by (destruct He as [-> | ->]; cbn; rewrite ?andb_false_r; reflexivity).
      rewrite Hb. split; [reflexivity |]. intros k.
      replace (negb (truthy (Some (env_or_empty w "GITHUB_OWNER")))
               || negb (truthy (Some (env_or_empty w "GITHUB_REPO")))) with true
        by (destruct He as [-> | ->]; cbn; rewrite ?orb_true_r; reflexivity).
      exec. rewrite Hg. exec. rewrite (truthy_some _ Ho), (truthy_some _ Hr).
      cbn [negb orb]. exec.
      destruct (k (Some owner, Some repo) w) as [t r]. reflexivity. }
  destruct Hstart as (pre & -> & Hk).
  unfold main. cbn [OWNER REPO GITHUB_TOKEN globals_of].
  rewrite bind_header, Hk. clear Hk.
  match goal with
  | |- context [let (t, r) := ?X in ((pre ++ t)%list, r)] =>
      assert (H : exists t r, X = (t, r) /\ proceeds repr w owner repo t r)
  end.
  2: { destruct H as (t & r & -> & Hp). exists t, r.
       split; [| exact Hp]. now rewrite <- List.app_assoc. }
  cbv beta iota. cbn [fstr].
  destruct (String.eqb_spec (env_or_empty w "GITHUB_TOKEN") "") as [Et | Et].
  { exec. eexists. eexists. split; [reflexivity |]. now constructor. }
  exec.
  destruct (input w "Apply these settings? (y/N): ") as [line | e] eqn:Ei.
  2: { eexists. eexists. split; [reflexivity |]. now apply prompt_raised. }
  destruct (affirmative line) eqn:Ea; cbn [negb]; exec.
  2: { eexists. eexists. split; [reflexivity |].
       now apply (declined repr w owner repo line). }
  assert (Hc : confirmed w owner repo (env_or_empty w "GITHUB_TOKEN")).
  { split; [exact Hres |]. split; [reflexivity |]. split; [exact Et |].
    exists line. split; assumption. }
  destruct (apply_branch_protection (Some owner) (Some repo) BRANCH
              (env_or_empty w "GITHUB_TOKEN") w) as [ta [[] | e]] eqn:Eap; exec.
  - destruct (verify_protection repr (Some owner) (Some repo) BRANCH
                (env_or_empty w "GITHUB_TOKEN") w) as [tv [[] | e]] eqn:Ev; exec.
    + eexists. eexists.
      split; [| apply (completed repr w owner repo ta tv Hc Eap Ev)].
      reflexivity.
    + eexists. eexists.
      split; [| apply (verify_raised repr w owner repo ta tv e Hc Eap Ev)].
      reflexivity.
  - eexists. eexists. split; [| apply (apply_failed repr w owner repo ta Hc Eap)].
    reflexivity.
  - eexists. eexists. split; [| apply (apply_raised repr w owner repo ta e Hc Eap)].
    reflexivity.
Qed.

(** [main] when detection gives no usable pair. *)
Lemma main_undetected (w : world) (o r : option string) :
  both_set w = false ->
  get_repo_info w = ([Run git_argv], Val (o, r)) ->
  truthy o && truthy r = false ->
  main repr (globals_of w) w = ((start w ++ usage)%list, Exc (SystemExit 1)).
Proof.
  intros Eb Eg Etr. pose proof (both_set_false w Eb) as He.
  unfold main. cbn [OWNER REPO GITHUB_TOKEN globals_of].
  rewrite bind_header. unfold start. rewrite Eb.
  replace (negb (truthy (Some (env_or_empty w "GITHUB_OWNER")))
           || negb (truthy (Some (env_or_empty w "GITHUB_REPO")))) with true
    by (destruct He as [-> | ->]; cbn; rewrite ?orb_true_r; reflexivity).
  exec. rewrite Eg. exec.
  replace (negb (truthy o) || negb (truthy r)) with true
    by (apply andb_false_iff in Etr as [-> | ->]; cbn;
        rewrite ?orb_true_r; reflexivity).
  exec. reflexivity.
Qed.

(** Every run of [main] goes one of the ways of [path]. *)
Lemma main_path (w : world) :
  path repr w (fst (main repr (globals_of w) w)) (snd (main repr (globals_of w) w)).
Proof.
  destruct (both_set w) eqn:Eb.
  - unfold both_set in Eb. apply andb_true_iff in Eb as [Ho Hr].
    apply truthy_inv in Ho as (o & [= <-] & Ho), Hr as (r & [= <-] & Hr).
    assert (Hres : resolves w (env_or_empty w "GITHUB_OWNER")
                     (env_or_empty w "GITHUB_REPO"))
      by (split; [exact Ho | split; [exact Hr | left; split; reflexivity]]).
    destruct (main_resolved w _ _ Hres) as (t & r & -> & Hp).
    now apply (resolved repr w _ _ t r Hres).
  - pose proof (both_set_false w Eb) as He.
    pose proof (get_repo_info_trace w) as Ht.
    destruct (get_repo_info w) as [tg rg] eqn:Eg. cbn [fst] in Ht. subst tg.
    destruct rg as [[o r] | e].
    + destruct (truthy o && truthy r) eqn:Etr.
      * apply andb_true_iff in Etr as [Ho Hr].
        apply truthy_inv in Ho as (owner & -> & Ho), Hr as (repo & -> & Hr).
        assert (Hres : resolves w owner repo).
        { split; [exact Ho | split; [exact Hr |]]. right. split; [exact He |].
          now rewrite Eg. }
        destruct (main_resolved w _ _ Hres) as (t & r & -> & Hp).
        now apply (resolved repr w _ _ t r Hres).
      * rewrite (main_undetected w o r Eb Eg Etr).
        exact (detect_failed repr w o r Eb Eg Etr).
    + pose proof (detect_raised repr w e Eb Eg) as Hp.
      replace (main repr (globals_of w) w)
        with (start w, @Exc unit e); [exact Hp |].
      unfold main. cbn [OWNER REPO GITHUB_TOKEN globals_of].
      rewrite bind_header. unfold start. rewrite Eb.
      replace (negb (truthy (Some (env_or_empty w "GITHUB_OWNER")))
               || negb (truthy (Some (env_or_empty w "GITHUB_REPO")))) with true
        by (destruct He as [-> | ->]; cbn; rewrite ?orb_true_r; reflexivity).
      exec. rewrite Eg. exec. reflexivity.
Qed.

(** The run, from what [main] does. *)
Lemma run_of_main (w : world) (t : list event) (r : res unit) :
  main repr (globals_of w) w = (t, r) ->
  run repr w =
  ((module_reads ++ t ++
    match r with
    | Exc KeyboardInterrupt =>
        [Print stdout ""; Print stdout "⚠️  Cancelled by user"]
    | _ => []
    end)%list,
   match r with
   | Val _ => Finished
   | Exc e => ending e
   end).
Proof.
  intros H. rewrite run_main, H.
  destruct r as [[] | []]; rewrite ?List.app_nil_r; reflexivity.
Qed.

End MainPaths.

(** * Further properties of the runs *)

(** ** The answer at the prompt *)

Lemma lower_char_y (c : ascii) :
  PyStr.lower_char c = "y"%char -> c = "y"%char \/ c = "Y"%char.
Proof.
  destruct c as [[] [] [] [] [] [] [] []]; vm_compute; intros H;
    first [discriminate H | left; reflexivity | right; reflexivity].
Qed.

Lemma lower_char_e (c : ascii) :
  PyStr.lower_char c = "e"%char -> c = "e"%char \/ c = "E"%char.
Proof.
  destruct c as [[] [] [] [] [] [] [] []]; vm_compute; intros H;
    first [discriminate H | left; reflexivity | right; reflexivity].
Qed.

Lemma lower_char_s (c : ascii) :
  PyStr.lower_char c = "s"%char -> c = "s"%char \/ c = "S"%char.
Proof.
  destruct c as [[] [] [] [] [] [] [] []]; vm_compute; intros H;
    first [discriminate H | left; reflexivity | right; reflexivity].
Qed.

(** X12.  The answers that let the run go on are [y] and [yes] in any
    mix of upper and lower case, and nothing else: no other word, and no
    white space around them. *)
Theorem affirmative_spellings (line : string) :
  affirmative line = true <->
  In line ["y"; "Y"; "yes"; "yeS"; "yEs"; "yES"; "Yes"; "YeS"; "YEs"; "YES"].
Proof.
  split.
  - unfold affirmative. cbn [existsb]. rewrite orb_false_r.
    intros H. apply orb_true_iff in H as [H | H]; apply String.eqb_eq in H.
    + destruct line as [| c [| d rest]]; try discriminate H.
      injection H as H. destruct (lower_char_y c H) as [-> | ->]; cbn; auto.
    + destruct line as [| c [| d [| f [| g rest]]]]; try discriminate H.
      injection H as Hc Hd Hf.
      destruct (lower_char_y c Hc) as [-> | ->],
               (lower_char_e d Hd) as [-> | ->],
               (lower_char_s f Hf) as [-> | ->]; cbn; auto 12.
  - cbn [In]. intros H.
    repeat (destruct H as [<- | H]; [reflexivity |]). destruct H.
Qed.

Section FurtherRuns.
Variable repr : value -> string.

(** ** Before the apply step *)

(** X13.  When reading the answer fails, at the end of the input or on
    an interrupt, no HTTP call is issued; the interrupt ends the run
    with exit status 0, and any other exception ends it on a
    traceback. *)
Theorem prompt_failure_sends_nothing (w : world) (owner repo : string) (e : exn) :
  resolves w owner repo ->
  env_or_empty w "GITHUB_TOKEN" <> "" ->
  input w prompt = Exc e ->
  network_calls (fst (run repr w)) = [] /\ snd (run repr w) = ending e.
Proof.
  intros Hres Htok Hin. apply String.eqb_neq in Htok. unfold prompt in Hin.
  rewrite run_main. exec.
  resolve Hres; rewrite Htok; exec; rewrite Hin; exec;
    destruct e; split; reflexivity.
Qed.

(** X14.  A remote URL with an empty owner or an empty repository name,
    as [https://github.com/octo/], is split into a pair with an empty
    string in it; [main] takes the pair as not detected, prints the
    usage and exits with status 1. *)
Theorem empty_name_aborts (w : world) (style : url_style) (owner repo out : string)
    (dot_git : bool) :
  both_set w = false ->
  subprocess_run w git_argv = Val out ->
  PyStr.strip out = github style (owner ++ "/" ++ repo) dot_git ->
  PyStr.count "/" owner = 0 -> PyStr.count "/" repo = 0 ->
  PyStr.str_in ".git" (owner ++ "/" ++ repo) = false ->
  path_ok style (owner ++ "/" ++ repo) ->
  owner = "" \/ repo = "" ->
  get_repo_info w = ([Run git_argv], Val (Some owner, Some repo))
  /\ run repr w = ((module_reads ++ start w ++ usage)%list, Exited 1).
Proof.
  intros Eb Hrun Hs Ho Hr Hg Hp Hempty.
  assert (Hi : get_repo_info w = ([Run git_argv], Val (Some owner, Some repo))).
  { pose proof (UrlFacts.yields_split style _ _ dot_git
                  (UrlFacts.replace_github style _ dot_git Hg) Hp w out Hrun Hs)
      as H.
    change (owner ++ "/" ++ repo) with (owner ++ String "/" repo) in H.
    rewrite (PyStrFacts.split_pair "/" owner repo Ho Hr) in H. exact H. }
  split; [exact Hi |].
  assert (Ht : truthy (Some owner) && truthy (Some repo) = false)
    by (destruct Hempty as [-> | ->]; cbn; rewrite ?andb_false_r; reflexivity).
  rewrite (run_of_main repr w _ _ (main_undetected repr w _ _ Eb Hi Ht)).
  rewrite List.app_nil_r. reflexivity.
Qed.

(** ** What the steps leave alone *)

Lemma apply_plain (owner repo : option string) (branch token : string) :
  always no_subprocess (apply_branch_protection owner repo branch token).
Proof.
  unfold apply_branch_protection, put, print_success, print_error, print_info,
    print, print_to.
  repeat always_step; exact I.
Qed.

Lemma verify_plain (owner repo : option string) (branch token : string) :
  always (fun e => no_subprocess e /\ on_stdout e)
    (verify_protection repr owner repo branch token).
Proof.
  unfold verify_protection, get, print_success, print_warning, print, print_to.
  repeat always_step; split; exact I.
Qed.

Lemma verify_subprocesses (w : world) (owner repo : option string)
    (branch token : string) :
  subprocesses (fst (verify_protection repr owner repo branch token w)) = [].
Proof.
  apply subprocesses_none.
  exact (List.Forall_impl _ (fun e H => proj1 H)
           (verify_plain owner repo branch token w)).
Qed.


Lemma apply_subprocesses (w : world) (owner repo : option string)
    (branch token : string) :
  subprocesses (fst (apply_branch_protection owner repo branch token w)) = [].
Proof. apply subprocesses_none, apply_plain. Qed.

Lemma apply_calls (w : world) (owner repo token : string) :
  network_calls (fst (apply_branch_protection (Some owner) (Some repo)
                        BRANCH token w))
  = [Put (put_request owner repo token)].
Proof.
  rewrite apply_run, put_of_master. cbv zeta.
  destruct (requests_put w (put_request owner repo token)) as [resp | e].
  - cbn [fst]. calls.
    destruct (status_code resp =? 200)%Z; [reflexivity |].
    destruct (status_code resp =? 401)%Z; [reflexivity |].
    destruct (status_code resp =? 403)%Z; [reflexivity |].
    destruct (status_code resp =? 404)%Z; reflexivity.
  - destruct e; reflexivity.
Qed.

Lemma apply_value (w : world) (owner repo token : string) :
  snd (apply_branch_protection (Some owner) (Some repo) BRANCH token w)
  = match requests_put w (put_request owner repo token) with
    | Val resp => Val (status_code resp =? 200)%Z
    | Exc (RequestException _) => Val false
    | Exc e => Exc e
    end.
Proof.
  rewrite apply_run, put_of_master. cbv zeta.
  destruct (requests_put w (put_request owner repo token)) as [resp | e];
    [reflexivity | destruct e; reflexivity].
Qed.


Lemma calls_start (w : world) : network_calls (start w) = [].
Proof. unfold start. destruct (both_set w); reflexivity. Qed.

Lemma subprocesses_start (w : world) :
  subprocesses (start w) = if both_set w then [] else [git_argv].
Proof. unfold start. destruct (both_set w); reflexivity. Qed.


(** ** The HTTP calls of a run *)

Lemma proceeds_calls (w : world) (owner repo : string) (t : list event)
    (r : res unit) :
  proceeds repr w owner repo t r ->
  network_calls t = []
  \/ confirmed w owner repo (env_or_empty w "GITHUB_TOKEN")
     /\ exists rest,
          network_calls t
          = Put (put_request owner repo (env_or_empty w "GITHUB_TOKEN")) :: rest.
Proof.
  destruct 1 as [Et | e Et Ei | line Et Ei Ea | ta e Hc Ea | ta Hc Ea
                 | ta tv e Hc Ea Ev | ta tv Hc Ea Ev];
    try (left; reflexivity);
    right; (split; [exact Hc |]);
    pose proof (apply_calls w owner repo (env_or_empty w "GITHUB_TOKEN")) as Hp;
    rewrite Ea in Hp; cbn [fst] in Hp;
    rewrite network_calls_app;
    change (network_calls (display owner repo)) with (@nil event);
    cbn [app];
    change (Print stdout "" :: ?l) with ([Print stdout ""] ++ l)%list;
    rewrite ?network_calls_app, Hp; cbn [app network_calls List.filter is_network];
    eexists; reflexivity.
Qed.

(** X15.  A run that issues an HTTP call has got past all three
    guards: the coordinates resolve, the token is set, and the answer at
    the prompt is affirmative; and its first call is the PUT to the
    protection endpoint of those coordinates, with that token. *)
Theorem calls_need_confirmation (w : world) :
  network_calls (fst (run repr w)) <> [] ->
  exists owner repo,
    confirmed w owner repo (env_or_empty w "GITHUB_TOKEN")
    /\ exists rest,
         network_calls (fst (run repr w))
         = Put (put_request owner repo (env_or_empty w "GITHUB_TOKEN")) :: rest.
Proof.
  pose proof (main_path repr w) as Hp.
  destruct (main repr (globals_of w) w) as [t r] eqn:Em. cbn [fst snd] in Hp.
  rewrite (run_of_main repr w t r Em). cbn [fst].
  assert (Htail : forall t' : list event,
            network_calls (module_reads ++ t' ++
              match r with
              | Exc KeyboardInterrupt =>
                  [Print stdout ""; Print stdout "⚠️  Cancelled by user"]
              | _ => []
              end)%list = network_calls t').
  { intros t'. rewrite !network_calls_app.
    destruct r as [[] | []]; cbn; rewrite ?List.app_nil_r; reflexivity. }
  rewrite Htail.
  destruct Hp as [e Eb Eg | o p Eb Eg Etr | owner repo t' r Hres Hpr].
  - rewrite calls_start. intros H. now contradiction H.
  - rewrite network_calls_app, calls_start. intros H. now contradiction H.
  - rewrite network_calls_app, calls_start. cbn [app].
    destruct (proceeds_calls w owner repo t' r Hpr) as [-> | [Hc Hrest]].
    + intros H. now contradiction H.
    + intros _. exists owner, repo. split; [exact Hc | exact Hrest].
Qed.

Lemma resolves_unique (w : world) (owner repo owner' repo' : string) :
  resolves w owner repo -> resolves w owner' repo' ->
  owner = owner' /\ repo = repo'.
Proof.
  intros (Ho & Hr & [[Eo Er] | [He Hg]]) (Ho' & Hr' & [[Eo' Er'] | [He' Hg']]).
  - split; congruence.
  - destruct He' as [E | E]; congruence.
  - destruct He as [E | E]; congruence.
  - rewrite Hg in Hg'. injection Hg' as -> ->. split; reflexivity.
Qed.

(** X16.  With the run at the apply step, the HTTP calls and the end of
    the run are determined by the two answers: the PUT comes first; the
    GET follows exactly when the PUT is answered with 200; a PUT
    answered otherwise, or failed with a [RequestException], gives exit
    status 1; after a 200 the run ends as [verify_protection] does; any
    other exception out of the PUT ends the run. *)
Theorem confirmed_run (w : world) (owner repo token : string) :
  confirmed w owner repo token ->
  network_calls (fst (run repr w))
  = Put (put_request owner repo token) ::
    match requests_put w (put_request owner repo token) with
    | Val resp =>
        if (status_code resp =? 200)%Z
        then [Get (get_request owner repo token)] else []
    | Exc _ => []
    end
  /\ snd (run repr w)
     = match requests_put w (put_request owner repo token) with
       | Val resp =>
           if (status_code resp =? 200)%Z then
             match snd (verify_protection repr (Some owner) (Some repo)
                          BRANCH token w) with
             | Val _ => Finished
             | Exc e => ending e
             end
           else Exited 1
       | Exc (RequestException _) => Exited 1
       | Exc e => ending e
       end.
Proof.
  intros Hc. pose proof Hc as (Hres & Htok & Hne & line & Hin & Hyes).
  subst token.
  destruct (main_resolved repr w owner repo Hres) as (t & r & Em & Hp).
  rewrite (run_of_main repr w _ r Em). cbn [fst snd].
  rewrite !network_calls_app, calls_start.
  change (network_calls module_reads) with (@nil event). cbn [app].
  pose proof (apply_calls w owner repo (env_or_empty w "GITHUB_TOKEN")) as Hpc.
  pose proof (apply_value w owner repo (env_or_empty w "GITHUB_TOKEN")) as Hav.
  pose proof (verify_calls repr w owner repo (env_or_empty w "GITHUB_TOKEN")) as Hvc.
  unfold network_calls in Hpc, Hvc.
  destruct Hp as [Et | e Et Ei | l Et Ei Ea | ta e _ Ea | ta _ Ea
                  | ta tv e _ Ea Ev | ta tv _ Ea Ev];
    try congruence.
  all: rewrite Ea in Hpc, Hav; cbn [fst snd] in Hpc, Hav;
    try (rewrite Ev in Hvc |- *; cbn [fst snd] in Hvc |- *);
    destruct (requests_put w (put_request owner repo (env_or_empty w "GITHUB_TOKEN")))
      as [resp | ex];
    [ destruct (status_code resp =? 200)%Z | destruct ex ];
    try discriminate Hav; try (injection Hav as ->);
    try match goal with x : exn |- _ => destruct x end;
    unfold display, summary, banner;
    (split; [calls; rewrite ?Hpc, ?Hvc; cbn [app]; rewrite ?List.app_nil_r;
             reflexivity
            | reflexivity]).
Qed.

(** X17.  The run finishes, past the banner [Setup Complete!], exactly
    when it gets to the apply step, the PUT is answered with status 200
    and [verify_protection] returns. *)
Theorem finished_iff (w : world) :
  snd (run repr w) = Finished <->
  exists owner repo token resp,
    confirmed w owner repo token
    /\ requests_put w (put_request owner repo token) = Val resp
    /\ status_code resp = 200%Z
    /\ snd (verify_protection repr (Some owner) (Some repo) BRANCH token w)
       = Val tt.
Proof.
  split.
  - pose proof (main_path repr w) as Hp.
    destruct (main repr (globals_of w) w) as [t r] eqn:Em. cbn [fst snd] in Hp.
    rewrite (run_of_main repr w t r Em). cbn [snd].
    destruct r as [[] | e]; [| destruct e; discriminate]. intros _.
    inversion Hp as [| | owner repo t' r' Hres Hpr]; subst.
    inversion Hpr as [| | | | | | ta tv Hc Ea Ev]; subst.
    exists owner, repo, (env_or_empty w "GITHUB_TOKEN").
    pose proof (apply_value w owner repo (env_or_empty w "GITHUB_TOKEN")) as Hav.
    rewrite Ea in Hav. cbn [snd] in Hav.
    destruct (requests_put w _) as [resp | ex];
      [| destruct ex; discriminate Hav].
    exists resp. split; [exact Hc |]. split; [reflexivity |].
    split; [| rewrite Ev; reflexivity].
    injection Hav as Hav. symmetry in Hav. apply Z.eqb_eq in Hav. exact Hav.
  - intros (owner & repo & token & resp & Hc & Hput & Hs & Hv).
    pose proof (apply_answered w owner repo token resp Hput) as Ha.
    rewrite Hs in Ha. cbn [Z.eqb Pos.eqb] in Ha.
    destruct (verify_protection repr (Some owner) (Some repo) BRANCH token w)
      as [tv rv] eqn:Ev.
    cbn [snd] in Hv. subst rv.
    exact (proj2 (run_apply_succeeded repr w owner repo token _ tv _ Hc Ha Ev)).
Qed.

(** ** The subprocess *)

Lemma proceeds_subprocesses (w : world) (owner repo : string) (t : list event)
    (r : res unit) :
  proceeds repr w owner repo t r -> subprocesses t = [].
Proof.
  destruct 1 as [Et | e Et Ei | line Et Ei Ea | ta e Hc Ea | ta Hc Ea
                 | ta tv e Hc Ea Ev | ta tv Hc Ea Ev];
    try reflexivity;
    pose proof (apply_subprocesses w (Some owner) (Some repo) BRANCH
                  (env_or_empty w "GITHUB_TOKEN")) as Hp;
    rewrite Ea in Hp; cbn [fst] in Hp;
    try (pose proof (verify_subprocesses w (Some owner) (Some repo) BRANCH
                       (env_or_empty w "GITHUB_TOKEN")) as Hq;
         rewrite Ev in Hq; cbn [fst] in Hq);
    change (Print stdout "" :: ?l) with ([Print stdout ""] ++ l)%list;
    rewrite ?subprocesses_app, Hp, ?Hq; reflexivity.
Qed.

(** X18.  [git] is started exactly when one of the two coordinate
    variables is unset or empty, and then once, with the arguments
    [remote get-url origin]; no run starts any other subprocess. *)
Theorem git_consulted_iff (w : world) :
  subprocesses (fst (run repr w)) = if both_set w then [] else [git_argv].
Proof.
  pose proof (main_path repr w) as Hp.
  destruct (main repr (globals_of w) w) as [t r] eqn:Em. cbn [fst snd] in Hp.
  rewrite (run_of_main repr w t r Em). cbn [fst].
  rewrite !subprocesses_app.
  replace (subprocesses
             match r with
             | Exc KeyboardInterrupt =>
                 [Print stdout ""; Print stdout "⚠️  Cancelled by user"]
             | _ => []
             end) with (@nil (list string))
    by (destruct r as [[] | []]; reflexivity).
  rewrite List.app_nil_r. cbn [module_reads subprocesses app].
  destruct Hp as [e Eb Eg | o p Eb Eg Etr | owner repo t' r Hres Hpr].
  - apply subprocesses_start.
  - rewrite subprocesses_app, subprocesses_start, List.app_nil_r. reflexivity.
  - rewrite subprocesses_app, subprocesses_start,
      (proceeds_subprocesses w owner repo t' r Hpr), List.app_nil_r. reflexivity.
Qed.

(** ** The standard error stream *)



Lemma apply_marked (owner repo : option string) (branch token : string) :
  always error_marked (apply_branch_protection owner repo branch token).
Proof.
  unfold apply_branch_protection, put, print_success, print_error, print_info,
    print, print_to.
  repeat always_step; exact I || reflexivity.
Qed.

Lemma main_marked (g : globals) : always error_marked (main repr g).
Proof.
  unfold main, py_input, print_header, print_success, print_error,
    print_warning, print_info, print, print_to.
  repeat
    match goal with
    | |- always _ (apply_branch_protection _ _ _ _) => apply apply_marked
    | |- always _ (verify_protection _ _ _ _ _) =>
        intros w';
        exact (List.Forall_impl error_marked
                 (fun e H => match e return on_stdout e -> error_marked e with
                             | Print stderr _ => fun F => match F with end
                             | _ => fun _ => I
                             end (proj2 H))
                 (verify_plain _ _ _ _ w'))
    | |- always _ get_repo_info => apply get_repo_info_quiet; exact I
    | _ => always_step
    end;
  exact I || reflexivity.
Qed.

(** X20.  Every text the script writes to the standard error stream, one
    for each [print] to it, starts with the error mark: information,
    warnings, the usage and the summaries go to the standard output.
    This is about what the script writes, and about the start of each
    text: what the interpreter writes about an uncaught exception is no
    event of a run, and a text that quotes a response body or the
    message of an exception has the line breaks of what it quotes. *)
Theorem stderr_carries_errors_only (w : world) :
  Forall error_marked (fst (run repr w)).
Proof.
  pose proof (main_marked (globals_of w) w) as H.
  destruct (main repr (globals_of w) w) as [t r] eqn:Em. cbn [fst] in H.
  rewrite (run_of_main repr w t r Em). cbn [fst].
  apply Forall_app. split; [repeat constructor |].
  apply Forall_app. split; [exact H |].
  destruct r as [[] | []]; repeat constructor.
Qed.

(** The mark is at the start of each text, not of each of its lines: a
    body of several lines is printed as it is. *)
Remark error_text_may_span_lines :
  stderr_lines (fst (run sample_repr bad_gateway))
  = ["❌ Failed with status code: 502";
     "❌ Response: <html>" ++ nl ++ "<h1>502 Bad Gateway</h1>" ++ nl ++ "</html>"].
Proof. reflexivity. Qed.

End FurtherRuns.

(** * The further properties at work on sample worlds *)

Lemma extra_components_ignored_witness :
  (PyStr.count "/" "octo" = 0 /\ PyStr.count "/" "demo" = 0
   /\ PyStr.str_in ".git" "octo/demo/tree/main" = false
   /\ path_ok Https "octo/demo/tree/main")
  /\ get_repo_info (git_prints ("https://github.com/octo/demo/tree/main" ++ nl))
     = ([Run git_argv], Val (Some "octo", Some "demo")).
Proof.
  split; [repeat split |].
  exact (extra_components_ignored Https "octo" "demo" "tree/main" false
           eq_refl eq_refl eq_refl eq_refl
           (git_prints ("https://github.com/octo/demo/tree/main" ++ nl))
           ("https://github.com/octo/demo/tree/main" ++ nl) eq_refl eq_refl).
Defined.

Lemma single_component_is_no_pair_witness :
  (PyStr.count "/" "octo" = 0 /\ PyStr.str_in ".git" "octo" = false
   /\ path_ok Ssh "octo")
  /\ get_repo_info (git_prints ("git@github.com:octo.git" ++ nl))
     = ([Run git_argv], Val (None, None)).
Proof.
  split; [repeat split |].
  exact (single_component_is_no_pair Ssh "octo" true eq_refl eq_refl eq_refl
           (git_prints ("git@github.com:octo.git" ++ nl))
           ("git@github.com:octo.git" ++ nl) eq_refl eq_refl).
Defined.

Lemma inner_dot_git_removed_witness :
  (PyStr.count "/" "octo" = 0 /\ PyStr.count "/" "octo" = 0
   /\ PyStr.count "/" "hub.io" = 0
   /\ PyStr.str_in ".git" "octo" = false /\ PyStr.str_in ".git" "hub.io" = false
   /\ path_ok Https "octo/octohub.io")
  /\ get_repo_info (git_prints ("https://github.com/octo/octo.github.io.git" ++ nl))
     = ([Run git_argv], Val (Some "octo", Some "octohub.io")).
Proof.
  split; [repeat split |].
  exact (inner_dot_git_removed Https "octo" "octo" "hub.io" true
           eq_refl eq_refl eq_refl eq_refl eq_refl eq_refl eq_refl
           (git_prints ("https://github.com/octo/octo.github.io.git" ++ nl))
           ("https://github.com/octo/octo.github.io.git" ++ nl) eq_refl eq_refl).
Defined.

Lemma substring_host_accepted_witness :
  (PyStr.str_in "github.com" "notgithub.com.example.org" = true
   /\ PyStr.str_in ".git" "notgithub.com.example.org" = false
   /\ PyStr.count ":" "notgithub.com.example.org" = 0
   /\ PyStr.count "/" "notgithub.com.example.org" = 0)
  /\ get_repo_info (git_prints ("git@notgithub.com.example.org:octo/demo" ++ nl))
     = ([Run git_argv], Val (Some "octo", Some "demo")).
Proof.
  split; [repeat split |].
  exact (substring_host_accepted "notgithub.com.example.org" "octo" "demo"
           eq_refl eq_refl eq_refl eq_refl eq_refl eq_refl eq_refl eq_refl
           eq_refl eq_refl
           (git_prints ("git@notgithub.com.example.org:octo/demo" ++ nl))
           ("git@notgithub.com.example.org:octo/demo" ++ nl) eq_refl eq_refl).
Defined.

Lemma verify_prints_digest_witness :
  let w := session (Val "y") (Val (answer 200)) (Val (body active_policy)) in
  (field active_policy "required_status_checks" "contexts" (VList [])
   = Some (VList [VStr "quality"; VStr "deploy"])
   /\ field active_policy "required_linear_history" "enabled" (VBool false)
      = Some (VBool false))
  /\ printed (fst (verify_protection sample_repr (Some "octo") (Some "demo")
                     BRANCH "secret" w))
     = [(stdout, ""); (stdout, "Verifying configuration..."); (stdout, "");
        (stdout, "✅ Verification successful");
        (stdout, "");
        (stdout, "Current settings:");
        (stdout, "  • Required status checks: <value>");
        (stdout, "  • Required approvals: 1");
        (stdout, "  • Enforce for admins: True");
        (stdout, "  • Linear history: False")].
Proof.
  cbv zeta. split; [split; reflexivity |].
  rewrite (verify_prints_digest sample_repr
             (session (Val "y") (Val (answer 200)) (Val (body active_policy)))
             "octo" "demo" "secret" (body active_policy) active_policy
             (VList [VStr "quality"; VStr "deploy"]) (VInt 1) (VBool true)
             (VBool false) eq_refl eq_refl eq_refl eq_refl eq_refl eq_refl eq_refl).
  reflexivity.
Defined.

Lemma verify_defaults_witness :
  let w := session (Val "y") (Val (answer 200)) (Val (answer 200)) in
  json (answer 200) = Val (VDict [])
  /\ snd (verify_protection sample_repr (Some "octo") (Some "demo")
            BRANCH "secret" w) = Val tt.
Proof.
  cbv zeta. split; [reflexivity |].
  exact (proj2 (verify_defaults sample_repr
                  (session (Val "y") (Val (answer 200)) (Val (answer 200)))
                  "octo" "demo" "secret" (answer 200) []
                  eq_refl eq_refl eq_refl eq_refl eq_refl eq_refl eq_refl)).
Defined.

Lemma misshaped_body_ends_run_witness :
  let w := session (Val "y") (Val (answer 200)) (Val (body PROTECTION_CONFIG)) in
  confirmed w "octo" "demo" "secret"
  /\ field PROTECTION_CONFIG "enforce_admins" "enabled" (VBool false) = None
  /\ snd (run sample_repr w) = Traceback AttributeError
  /\ exit_code (snd (run sample_repr w)) = 1%Z.
Proof.
  cbv zeta.
  assert (Hc : confirmed (session (Val "y") (Val (answer 200))
                            (Val (body PROTECTION_CONFIG)))
                 "octo" "demo" "secret") by confirm.
  split; [exact Hc |]. split; [reflexivity |].
  exact (proj2 (misshaped_body_ends_run sample_repr _ "octo" "demo" "secret"
                  (answer 200) (body PROTECTION_CONFIG) PROTECTION_CONFIG
                  Hc eq_refl eq_refl eq_refl eq_refl eq_refl
                  (or_intror (or_intror (or_introl eq_refl))))).
Defined.

Lemma prompt_failure_sends_nothing_witness :
  let w := session (Exc EOFError) (Val (answer 200)) (Val (answer 200)) in
  resolves w "octo" "demo"
  /\ env_or_empty w "GITHUB_TOKEN" <> ""
  /\ input w prompt = Exc EOFError
  /\ network_calls (fst (run sample_repr w)) = []
  /\ snd (run sample_repr w) = Traceback EOFError.
Proof.
  cbv zeta.
  assert (Hr : resolves (session (Exc EOFError) (Val (answer 200)) (Val (answer 200)))
                 "octo" "demo").
  { unfold resolves. split; [discriminate |]. split; [discriminate |].
    left. split; reflexivity. }
  assert (Ht : env_or_empty (session (Exc EOFError) (Val (answer 200))
                               (Val (answer 200))) "GITHUB_TOKEN" <> "")
    by discriminate.
  split; [exact Hr |]. split; [exact Ht |]. split; [reflexivity |].
  exact (prompt_failure_sends_nothing sample_repr _ "octo" "demo" EOFError
           Hr Ht eq_refl).
Defined.

Lemma empty_name_aborts_witness :
  let w := git_prints ("https://github.com/octo/" ++ nl) in
  both_set w = false
  /\ PyStr.strip ("https://github.com/octo/" ++ nl)
     = github Https ("octo" ++ "/" ++ "") false
  /\ get_repo_info w = ([Run git_argv], Val (Some "octo", Some ""))
  /\ snd (run sample_repr w) = Exited 1.
Proof.
  cbv zeta. split; [reflexivity |]. split; [reflexivity |].
  destruct (empty_name_aborts sample_repr
              (git_prints ("https://github.com/octo/" ++ nl))
              Https "octo" "" ("https://github.com/octo/" ++ nl) false
              eq_refl eq_refl eq_refl eq_refl eq_refl eq_refl eq_refl
              (or_intror eq_refl)) as [Hi Hr].
  split; [exact Hi | rewrite Hr; reflexivity].
Defined.

Lemma calls_need_confirmation_witness :
  let w := session (Val "y") (Val (answer 403)) (Val (answer 200)) in
  network_calls (fst (run sample_repr w)) <> []
  /\ exists owner repo, confirmed w owner repo "secret".
Proof.
  cbv zeta.
  assert (H : network_calls
                (fst (run sample_repr
                        (session (Val "y") (Val (answer 403)) (Val (answer 200)))))
              <> []).
  { intros H. vm_compute in H. discriminate H. }
  split; [exact H |].
  destruct (calls_need_confirmation sample_repr _ H) as (owner & repo & Hc & _).
  exists owner, repo. exact Hc.
Defined.

Lemma confirmed_run_witness :
  let w := session (Val "yes") (Val (answer 200))
             (Exc (RequestException "timed out")) in
  confirmed w "octo" "demo" "secret"
  /\ network_calls (fst (run sample_repr w))
     = [Put (put_request "octo" "demo" "secret");
        Get (get_request "octo" "demo" "secret")]
  /\ snd (run sample_repr w) = Finished.
Proof.
  cbv zeta.
  assert (Hc : confirmed (session (Val "yes") (Val (answer 200))
                            (Exc (RequestException "timed out")))
                 "octo" "demo" "secret") by confirm.
  split; [exact Hc |].
  exact (confirmed_run sample_repr _ "octo" "demo" "secret" Hc).
Defined.

